(** * Remote command runner and key-append script

    A shallow embedding of [ssh-helper.py] and [add_key_nvram.py].

    Both scripts are straight-line sequences of calls into an SSH client
    library.  They are embedded as computations in a state-and-exception
    monad: the state holds the remote host, the client object and the log
    of everything the process did (library calls and writes to its own
    standard streams); exceptions are Python's, with [SystemExit] kept apart
    from the instances of [Exception] because the handlers of the command
    runner tell them apart.

    What lies outside the scripts is a parameter ([Env]): which stage of
    [connect] raises what, what a remote command does to the remote host and
    leaves on its channel, what the local key file holds, which characters
    the standard output of the process can encode.  [open], [connect] and
    [exec_command] raise what the environment says, an instance of
    [Exception] or the [KeyboardInterrupt] of a user who will not wait;
    [decode] raises on bytes that are no UTF-8 and [print] on a text its
    stream cannot encode.  A command whose output outgrows the channel's
    window never ends its streams, and the read that waits for their end
    never returns, unless the user interrupts it.  Once the streams have
    ended, reading the exit status and closing the client return, and the
    standard streams of the process are open.  The process runs on a
    POSIX system: its exit code is the low eight bits of the argument of
    [sys.exit].

    The first part holds the definitions, the second the properties. *)

From Stdlib Require Import List Bool Arith ZArith NArith Lia.
From Stdlib.Strings Require Import Ascii String Byte.
Import ListNotations.

Set Implicit Arguments.

(** ** Python text and bytes *)

(** A Python [str] is a sequence of code points, a [bytes] object a sequence
    of bytes. *)
Definition pystr := list N.
Definition pybytes := list byte.

Definition text (s : string) : pystr :=
  map N_of_ascii (list_ascii_of_string s).

Definition newline : pystr := [10%N].

Definition in_range (lo hi n : N) : bool := (lo <=? n)%N && (n <=? hi)%N.

(** [bytes.decode()] with its defaults: strict UTF-8. *)
Definition is_cont (n : N) : bool := in_range 0x80 0xBF n.

Definition second_ok3 (n0 n1 : N) : bool :=
  if (n0 =? 0xE0)%N then in_range 0xA0 0xBF n1
  else if (n0 =? 0xED)%N then in_range 0x80 0x9F n1
  else is_cont n1.

Definition second_ok4 (n0 n1 : N) : bool :=
  if (n0 =? 0xF0)%N then in_range 0x90 0xBF n1
  else if (n0 =? 0xF4)%N then in_range 0x80 0x8F n1
  else is_cont n1.

Fixpoint utf8_decode (bs : pybytes) : option pystr :=
  match bs with
  | [] => Some []
  | b0 :: r0 =>
    let n0 := Byte.to_N b0 in
    if (n0 <? 0x80)%N then option_map (cons n0) (utf8_decode r0)
    else if in_range 0xC2 0xDF n0 then
      match r0 with
      | b1 :: r1 =>
        let n1 := Byte.to_N b1 in
        if is_cont n1
        then option_map (cons ((n0 - 0xC0) * 64 + (n1 - 0x80))%N)
                        (utf8_decode r1)
        else None
      | _ => None
      end
    else if in_range 0xE0 0xEF n0 then
      match r0 with
      | b1 :: b2 :: r2 =>
        let n1 := Byte.to_N b1 in
        let n2 := Byte.to_N b2 in
        if second_ok3 n0 n1 && is_cont n2
        then option_map
               (cons ((n0 - 0xE0) * 4096 + (n1 - 0x80) * 64 + (n2 - 0x80))%N)
               (utf8_decode r2)
        else None
      | _ => None
      end
    else if in_range 0xF0 0xF4 n0 then
      match r0 with
      | b1 :: b2 :: b3 :: r3 =>
        let n1 := Byte.to_N b1 in
        let n2 := Byte.to_N b2 in
        let n3 := Byte.to_N b3 in
        if second_ok4 n0 n1 && is_cont n2 && is_cont n3
        then option_map
               (cons ((n0 - 0xF0) * 262144 + (n1 - 0x80) * 4096
                      + (n2 - 0x80) * 64 + (n3 - 0x80))%N)
               (utf8_decode r3)
        else None
      | _ => None
      end
    else None
  end.

(** [str.isspace] on one code point, and [str.strip()]. *)
Definition isspace (c : N) : bool :=
  in_range 0x09 0x0D c || in_range 0x1C 0x20 c
  || (c =? 0x85)%N || (c =? 0xA0)%N || (c =? 0x1680)%N
  || in_range 0x2000 0x200A c || (c =? 0x2028)%N || (c =? 0x2029)%N
  || (c =? 0x202F)%N || (c =? 0x205F)%N || (c =? 0x3000)%N.

Fixpoint lstrip (s : pystr) : pystr :=
  match s with
  | c :: r => if isspace c then lstrip r else s
  | [] => []
  end.

Definition strip (s : pystr) : pystr := rev (lstrip (rev (lstrip s))).

(** [needle in haystack] on [str]. *)
Fixpoint startswith (s p : pystr) {struct p} : bool :=
  match p, s with
  | [], _ => true
  | a :: p', b :: s' => (a =? b)%N && startswith s' p'
  | _ :: _, [] => false
  end.

Fixpoint contains (haystack needle : pystr) : bool :=
  startswith haystack needle ||
  match haystack with
  | [] => false
  | _ :: h' => contains h' needle
  end.

(** ** Exceptions *)

Inductive exception_class : Type :=
| Exception_
| OSError | TimeoutError | ConnectionRefusedError | FileNotFoundError
| NoValidConnectionsError
| ValueError | UnicodeDecodeError | UnicodeEncodeError
| LookupError | IndexError
| SSHException | AuthenticationException | BadAuthenticationType
| BadHostKeyException | ChannelException.

Definition class_eqb (c d : exception_class) : bool :=
  match c, d with
  | Exception_, Exception_ | OSError, OSError | TimeoutError, TimeoutError
  | ConnectionRefusedError, ConnectionRefusedError
  | FileNotFoundError, FileNotFoundError
  | NoValidConnectionsError, NoValidConnectionsError
  | ValueError, ValueError | UnicodeDecodeError, UnicodeDecodeError
  | UnicodeEncodeError, UnicodeEncodeError
  | LookupError, LookupError | IndexError, IndexError
  | SSHException, SSHException
  | AuthenticationException, AuthenticationException
  | BadAuthenticationType, BadAuthenticationType
  | BadHostKeyException, BadHostKeyException
  | ChannelException, ChannelException => true
  | _, _ => false
  end.

(** The proper ancestors of a class below [BaseException], nearest first. *)
Definition bases (c : exception_class) : list exception_class :=
  match c with
  | Exception_ => []
  | OSError | ValueError | LookupError | SSHException => [Exception_]
  | TimeoutError | ConnectionRefusedError | FileNotFoundError
  | NoValidConnectionsError => [OSError; Exception_]
  | UnicodeDecodeError | UnicodeEncodeError => [ValueError; Exception_]
  | IndexError => [LookupError; Exception_]
  | AuthenticationException | BadHostKeyException | ChannelException =>
    [SSHException; Exception_]
  | BadAuthenticationType =>
    [AuthenticationException; SSHException; Exception_]
  end.

Definition issubclass (c d : exception_class) : bool :=
  existsb (class_eqb d) (c :: bases c).

(** An instance of [Exception]: its class and what [str(e)] gives. *)
Record exception : Type := Exc { exc_class : exception_class; exc_str : pystr }.

Definition isinstance (e : exception) (c : exception_class) : bool :=
  issubclass (exc_class e) c.

(** What a call can raise: an instance of [Exception], or the
    [KeyboardInterrupt] of the user, which is a [BaseException] only. *)
Inductive thrown : Type :=
| Instance (e : exception)
| KeyboardInterrupt.

Coercion Instance : exception >-> thrown.

(** An instance of [Exception] counts as something thrown also where an
    oracle answers with an option. *)
Arguments Some {A} & a.

(** What a [raise] carries: something thrown, or the [SystemExit] of
    [sys.exit], a [BaseException] only as well. *)
Inductive raised : Type :=
| RaiseExc (t : thrown)
| SystemExit (code : Z).

(** What keeps a command from leaving its output on the channel: the call
    raises; or the command stalls, its output having outgrown the window of
    the channel before anybody read it, and never ends its streams; or the
    user, tired of waiting for their end, interrupts the read. *)
Inductive mishap : Type :=
| Raises (t : thrown)
| Stalls
| Abandoned.

Coercion Raises : thrown >-> mishap.

(** ** The SSH client library and the world around it *)

Inductive stream : Type := Stdout | Stderr.

Inductive MissingHostKeyPolicy : Type :=
| RejectPolicy | AutoAddPolicy | WarningPolicy.

Definition host_key := pybytes.

Record SSHClient : Type := mkClient {
  policy : MissingHostKeyPolicy;
  host_keys : list (pystr * host_key);
  active : bool
}.

(** What a finished remote command leaves on its channel; the status is
    what [recv_exit_status] answers: the number the server sent, or -1 when
    it sent none. *)
Record channel : Type := mkChannel {
  ch_stdout : pybytes;
  ch_stderr : pybytes;
  ch_status : Z
}.

(** What [exec_command] hands back: the streams of a command that finishes,
    streams that never end, or streams whose end the user does not wait
    for. *)
Inductive stdio : Type :=
| Finishes (ch : channel)
| NeverEnds
| Interrupted.

Inductive event : Type :=
| EvOpenFile (path : pystr)
| EvNewClient
| EvSetPolicy (p : MissingHostKeyPolicy)
| EvConnect (host user password : pystr) (timeout : Z)
| EvExec (command : pystr)
| EvRead (s : stream)
| EvRecvExitStatus
| EvClose
| EvWrite (s : stream) (t : pystr).

(** Everything the scripts do not decide themselves: the network, the server
    and the remote host (a state machine run by [exec_command]), the local
    file system, the wording the interpreter gives a decoding error, the
    characters beyond ASCII that the encoding of the standard output has,
    and the wording of an encoding error. *)
Record Env (Remote : Type) : Type := mkEnv {
  transport_fault : pystr -> Z -> Remote -> option thrown;
  server_key : pystr -> Remote -> host_key;
  auth_fault : pystr -> pystr -> pystr -> Remote -> option thrown;
  remote_exec : pystr -> Remote -> Remote * (mishap + channel);
  read_file : pystr -> thrown + pystr;
  decode_error_text : pybytes -> pystr;
  stdout_encodes : N -> bool;
  encode_error_text : pystr -> pystr
}.

Record World (Remote : Type) : Type := mkWorld {
  w_remote : Remote;
  w_client : SSHClient;
  w_log : list event
}.

(** A call returns, raises, or never comes back. *)
Inductive result (A : Type) : Type :=
| Ok (a : A)
| Raise (r : raised)
| Blocked.

Arguments Raise {A} r.

Arguments Ok {A} a.

Arguments Blocked {A}.

(** How the process ends: with an exit code, with the traceback of what
    nobody caught, or not at all. *)
Inductive termination : Type :=
| Exited (code : Z)
| Traceback (t : thrown)
| Hangs.

(** What the parent of the process sees of the argument of [sys.exit]. *)
Definition exit_status (code : Z) : Z := (code mod 256)%Z.

(** A character every encoding of a standard stream has. *)
Definition is_ascii (c : N) : bool := (c <? 128)%N.

(** A character the standard output can encode. *)
Definition encodable {Remote} (env : Env Remote) (c : N) : bool :=
  is_ascii c || stdout_encodes env c.

Fixpoint lookup_key (host : pystr) (l : list (pystr * host_key))
  : option host_key :=
  match l with
  | [] => None
  | (h, k) :: l' =>
    if list_eq_dec N.eq_dec h host then Some k else lookup_key host l'
  end.

(** The host-key stage of [SSHClient.connect]: a key on record for the host
    must match; for a host without one the client's policy decides.  (The
    wording of the two messages is abridged.) *)
Definition check_host_key (c : SSHClient) (host : pystr) (key : host_key)
  : exception + SSHClient :=
  match lookup_key host (host_keys c) with
  | Some k =>
    if list_eq_dec Byte.byte_eq_dec k key then inr c
    else inl (Exc BadHostKeyException (text "Host key for server does not match"))
  | None =>
    match policy c with
    | RejectPolicy =>
      inl (Exc SSHException (text "Server not found in known_hosts"))
    | AutoAddPolicy =>
      inr (mkClient (policy c) ((host, key) :: host_keys c) (active c))
    | WarningPolicy => inr c
    end
  end.

Declare Scope py_scope.
Delimit Scope py_scope with py.

Section Runtime.

Variable Remote : Type.
Variable env : Env Remote.

(** ** The monad *)

Definition M (A : Type) : Type := World Remote -> result A * World Remote.

Definition ret {A} (a : A) : M A := fun w => (Ok a, w).

Definition bind {A B} (m : M A) (f : A -> M B) : M B :=
  fun w =>
    match m w with
    | (Ok a, w') => f a w'
    | (Raise r, w') => (Raise r, w')
    | (Blocked, w') => (Blocked, w')
    end.

Definition raise {A} (t : thrown) : M A := fun w => (Raise (RaiseExc t), w).

Definition block {A} : M A := fun w => (Blocked, w).

Definition get_world : M (World Remote) := fun w => (Ok w, w).

Definition emit (ev : event) : M unit :=
  fun w => (Ok tt, mkWorld (w_remote w) (w_client w) (w_log w ++ [ev])).

Definition set_client (c : SSHClient) : M unit :=
  fun w => (Ok tt, mkWorld (w_remote w) c (w_log w)).

Definition set_remote (r : Remote) : M unit :=
  fun w => (Ok tt, mkWorld r (w_client w) (w_log w)).

Local Notation "x <- m ;; k" := (bind m (fun x => k))
  (at level 61, m at next level, right associativity) : py_scope.
Local Notation "m ;; k" := (bind m (fun _ => k))
  (at level 61, right associativity) : py_scope.
Local Open Scope py_scope.

(** [try: body except C1 ...: h1 except C2 ...: h2 ...]: the first clause
    whose class the exception is an instance of handles it; [SystemExit] and
    [KeyboardInterrupt] are instances of no class here and pass through. *)
Definition try_except {A} (body : M A)
           (handlers : list (exception_class * (exception -> M A))) : M A :=
  fun w =>
    match body w with
    | (Raise (RaiseExc (Instance e)), w') =>
      match find (fun h => isinstance e (fst h)) handlers with
      | Some h => snd h e w'
      | None => (Raise (RaiseExc e), w')
      end
    | other => other
    end.

(** ** Built-ins *)

(** [print(t, end=end_, file=file)].  The text is encoded before anything
    is written: the standard output refuses a text with a character its
    encoding lacks, the standard error writes an escape instead. *)
Definition print (t end_ : pystr) (file : stream) : M unit :=
  match file with
  | Stderr => emit (EvWrite Stderr (t ++ end_))
  | Stdout =>
    if forallb (encodable env) (t ++ end_)
    then emit (EvWrite Stdout (t ++ end_))
    else raise (Exc UnicodeEncodeError (encode_error_text env (t ++ end_)))
  end.

Definition sys_exit {A} (code : Z) : M A := fun w => (Raise (SystemExit code), w).

(** [l[i]] *)
Definition subscript (l : list pystr) (i : nat) : M pystr :=
  match nth_error l i with
  | Some x => ret x
  | None => raise (Exc IndexError (text "list index out of range"))
  end.

Definition decode (b : pybytes) : M pystr :=
  match utf8_decode b with
  | Some s => ret s
  | None => raise (Exc UnicodeDecodeError (decode_error_text env b))
  end.

(** [open(path).read()] *)
Definition open_read (path : pystr) : M pystr :=
  emit (EvOpenFile path) ;;
  match read_file env path with
  | inl e => raise e
  | inr t => ret t
  end.

(** ** The client library *)

(** The process has one client object; [SSHClient()] makes it afresh: the
    default policy, no host key on record (neither script loads any), no
    session. *)
Definition fresh_client : SSHClient := mkClient RejectPolicy [] false.

Definition SSHClient_new : M unit :=
  emit EvNewClient ;; set_client fresh_client.

Definition set_missing_host_key_policy (p : MissingHostKeyPolicy) : M unit :=
  emit (EvSetPolicy p) ;;
  w <- get_world ;;
  set_client (mkClient p (host_keys (w_client w)) (active (w_client w))).

Definition connect (host user password : pystr) (timeout : Z) : M unit :=
  emit (EvConnect host user password timeout) ;;
  w <- get_world ;;
  match transport_fault env host timeout (w_remote w) with
  | Some e => raise e
  | None =>
    match check_host_key (w_client w) host (server_key env host (w_remote w)) with
    | inl e => raise e
    | inr c =>
      set_client c ;;
      match auth_fault env host user password (w_remote w) with
      | Some e => raise e
      | None => set_client (mkClient (policy c) (host_keys c) true)
      end
    end
  end.

Definition exec_command (command : pystr) : M stdio :=
  emit (EvExec command) ;;
  w <- get_world ;;
  let (r, res) := remote_exec env command (w_remote w) in
  set_remote r ;;
  match res with
  | inl (Raises t) => raise t
  | inl Stalls => ret NeverEnds
  | inl Abandoned => ret Interrupted
  | inr ch => ret (Finishes ch)
  end.

(** [stdout.read()] and [stderr.read()]: the whole stream, once it has
    ended. *)
Definition read (f : stdio) (s : stream) : M pybytes :=
  emit (EvRead s) ;;
  match f with
  | Finishes ch =>
    ret (match s with Stdout => ch_stdout ch | Stderr => ch_stderr ch end)
  | NeverEnds => block
  | Interrupted => raise KeyboardInterrupt
  end.

Definition recv_exit_status (f : stdio) : M Z :=
  emit EvRecvExitStatus ;;
  match f with
  | Finishes ch => ret (ch_status ch)
  | NeverEnds => block
  | Interrupted => raise KeyboardInterrupt
  end.

Definition close : M unit :=
  emit EvClose ;;
  w <- get_world ;;
  set_client (mkClient (policy (w_client w)) (host_keys (w_client w)) false).

(** ** ssh-helper.py *)

Definition usage : pystr :=
  text "Usage: ssh-helper.py <host> <user> <password> <command>".

(** The [try] block of [main]. *)
Definition main_try (host user password command : pystr) : M unit :=
  SSHClient_new ;;
  set_missing_host_key_policy AutoAddPolicy ;;
  connect host user password 15 ;;
  ch <- exec_command command ;;
  out <- (b <- read ch Stdout ;; decode b) ;;
  err <- (b <- read ch Stderr ;; decode b) ;;
  exit_code <- recv_exit_status ch ;;
  close ;;
  print out [] Stdout ;;
  (match err with
   | [] => ret tt
   | _ :: _ => print err [] Stderr
   end) ;;
  sys_exit exit_code.

(** Its [except] clauses, in their order. *)
Definition main_except : list (exception_class * (exception -> M unit)) :=
  [ (AuthenticationException,
     fun _ => print (text "Authentication failed") newline Stderr ;;
              sys_exit 255);
    (SSHException,
     fun e => print (text "SSH error: " ++ exc_str e) newline Stderr ;;
              sys_exit 255);
    (Exception_,
     fun e => print (text "Connection error: " ++ exc_str e) newline Stderr ;;
              sys_exit 255) ].

Definition main (argv : list pystr) : M unit :=
  (if List.length argv <? 5
   then print usage newline Stderr ;; sys_exit 1
   else ret tt) ;;
  host <- subscript argv 1 ;;
  user <- subscript argv 2 ;;
  password <- subscript argv 3 ;;
  command <- subscript argv 4 ;;
  try_except (main_try host user password command) main_except.

(** ** add_key_nvram.py *)

Definition dquote : pystr := [34%N].

Definition jffs_command (pubkey : pystr) : pystr :=
  text "echo " ++ dquote ++ pubkey ++ dquote
  ++ text " >> /jffs/.ssh/authorized_keys 2>/dev/null || mkdir -p /jffs/.ssh && echo "
  ++ dquote ++ pubkey ++ dquote ++ text " >> /jffs/.ssh/authorized_keys".

Definition dropbear_command (pubkey : pystr) : pystr :=
  text "echo " ++ dquote ++ pubkey ++ dquote
  ++ text " >> /etc/dropbear/authorized_keys 2>/dev/null".

Definition add_key_nvram : M unit :=
  pubkey <- (t <- open_read (text "C:/Users/Shadow-PC/.ssh/id_rsa.pub") ;;
             ret (strip t)) ;;
  SSHClient_new ;;
  set_missing_host_key_policy AutoAddPolicy ;;
  connect (text "192.168.178.3") (text "admin") (text "Mel21isas") 10 ;;
  ch <- exec_command (text "nvram get sshd_authkeys") ;;
  current <- (b <- read ch Stdout ;; s <- decode b ;; ret (strip s)) ;;
  (if contains current pubkey
   then print (text "Key already in nvram") newline Stdout
   else
     ch <- exec_command (jffs_command pubkey) ;;
     read ch Stdout ;;
     read ch Stderr ;;
     ch <- exec_command (dropbear_command pubkey) ;;
     read ch Stdout ;;
     print (text "Key added to /jffs/.ssh/authorized_keys and /etc/dropbear/")
           newline Stdout) ;;
  close.

(** ** Running a script as a process *)

Definition start (r : Remote) : World Remote := mkWorld r fresh_client [].

Definition terminate (res : result unit) : termination :=
  match res with
  | Ok _ => Exited 0
  | Raise (SystemExit code) => Exited (exit_status code)
  | Raise (RaiseExc t) => Traceback t
  | Blocked => Hangs
  end.

Definition run (script : M unit) (r : Remote) : termination * World Remote :=
  let (res, w) := script (start r) in (terminate res, w).

End Runtime.

Arguments main {Remote} env argv _.
Arguments main_try {Remote} env host user password command _.
Arguments main_except {Remote}.
Arguments add_key_nvram {Remote} env _.
Arguments run {Remote} script r.
Arguments start {Remote} r.

(** ** A router to run the key-append script against

    The remote host of [add_key_nvram.py] as the three commands of the script
    see it: one nvram variable and two files, each in a directory that may be
    missing or read-only.  The shell reads [a || b && c] as [(a || b) && c];
    the text between the double quotes is taken literally. *)

Definition N_to_byte (n : N) : byte :=
  match Byte.of_N n with Some b => b | None => x00 end.

(** [str.encode()]: UTF-8. *)
Definition utf8_encode_char (c : N) : pybytes :=
  if (c <? 0x80)%N then [N_to_byte c]
  else if (c <? 0x800)%N then
    [N_to_byte (0xC0 + c / 64); N_to_byte (0x80 + c mod 64)]
  else if (c <? 0x10000)%N then
    [N_to_byte (0xE0 + c / 4096); N_to_byte (0x80 + (c / 64) mod 64);
     N_to_byte (0x80 + c mod 64)]
  else
    [N_to_byte (0xF0 + c / 262144); N_to_byte (0x80 + (c / 4096) mod 64);
     N_to_byte (0x80 + (c / 64) mod 64); N_to_byte (0x80 + c mod 64)].

Definition utf8_encode (s : pystr) : pybytes := flat_map utf8_encode_char s.

Definition strip_prefix (p s : pystr) : option pystr :=
  if startswith s p then Some (skipn (List.length p) s) else None.

Definition strip_suffix (p s : pystr) : option pystr :=
  option_map (@rev N) (strip_prefix (rev p) (rev s)).

Fixpoint split_on (sep s : pystr) : option (pystr * pystr) :=
  if startswith s sep then Some ([], skipn (List.length sep) s)
  else match s with
       | [] => None
       | c :: s' =>
         option_map (fun ab => (c :: fst ab, snd ab)) (split_on sep s')
       end.

Record Router : Type := mkRouter {
  nvram_sshd_authkeys : pybytes;
  jffs_writable : bool;
  jffs_ssh_dir : bool;
  jffs_authorized_keys : pybytes;
  dropbear_writable : bool;
  dropbear_authorized_keys : pybytes
}.

(** What [echo "k"] writes. *)
Definition echo (k : pystr) : pybytes := utf8_encode (k ++ newline).

(** [echo "k" >> /jffs/.ssh/authorized_keys]: the new state and whether the
    redirection could open the file. *)
Definition append_jffs (k : pystr) (r : Router) : Router * bool :=
  if jffs_writable r && jffs_ssh_dir r
  then (mkRouter (nvram_sshd_authkeys r) (jffs_writable r) (jffs_ssh_dir r)
                 (jffs_authorized_keys r ++ echo k)
                 (dropbear_writable r) (dropbear_authorized_keys r), true)
  else (r, false).

(** [mkdir -p /jffs/.ssh] *)
Definition mkdir_jffs (r : Router) : Router * bool :=
  if jffs_writable r
  then (mkRouter (nvram_sshd_authkeys r) (jffs_writable r) true
                 (jffs_authorized_keys r)
                 (dropbear_writable r) (dropbear_authorized_keys r), true)
  else (r, false).

Definition append_dropbear (k : pystr) (r : Router) : Router * bool :=
  if dropbear_writable r
  then (mkRouter (nvram_sshd_authkeys r) (jffs_writable r) (jffs_ssh_dir r)
                 (jffs_authorized_keys r)
                 (dropbear_writable r) (dropbear_authorized_keys r ++ echo k),
        true)
  else (r, false).

Definition status_of (ok : bool) : Z := if ok then 0%Z else 1%Z.

Definition cannot_create : pybytes :=
  utf8_encode (text "sh: can't create /jffs/.ssh/authorized_keys: nonexistent directory"
               ++ newline).

Definition parse_jffs (cmd : pystr) : option (pystr * pystr) :=
  match strip_prefix (text "echo " ++ dquote) cmd with
  | None => None
  | Some s =>
    match strip_suffix (dquote ++ text " >> /jffs/.ssh/authorized_keys") s with
    | None => None
    | Some s' =>
      split_on (dquote
                ++ text " >> /jffs/.ssh/authorized_keys 2>/dev/null || mkdir -p /jffs/.ssh && echo "
                ++ dquote) s'
    end
  end.

Definition parse_dropbear (cmd : pystr) : option pystr :=
  match strip_prefix (text "echo " ++ dquote) cmd with
  | None => None
  | Some s =>
    strip_suffix (dquote ++ text " >> /etc/dropbear/authorized_keys 2>/dev/null") s
  end.

Definition router_exec (cmd : pystr) (r : Router)
  : Router * (mishap + channel) :=
  if list_eq_dec N.eq_dec cmd (text "nvram get sshd_authkeys")
  then (r, inr (mkChannel (nvram_sshd_authkeys r ++ [x0a]) [] 0))
  else match parse_dropbear cmd with
  | Some k =>
    let (r1, ok) := append_dropbear k r in
    (r1, inr (mkChannel [] [] (status_of ok)))
  | None =>
    match parse_jffs cmd with
    | Some (k1, k2) =>
      let (r1, ok1) := append_jffs k1 r in
      let (r2, ok2) := if ok1 then (r1, true) else mkdir_jffs r1 in
      if ok2
      then let (r3, ok3) := append_jffs k2 r2 in
           (r3, inr (mkChannel [] (if ok3 then [] else cannot_create)
                               (status_of ok3)))
      else (r2, inr (mkChannel [] [] 1))
    | None =>
      (r, inr (mkChannel [] (utf8_encode (text "sh: not found" ++ newline)) 127))
    end
  end.

(** The interpreter's wording for the one undecodable input of the samples,
    a lone byte [0xff]. *)
Definition stray_byte_text : pystr :=
  text "'utf-8' codec can't decode byte 0xff in position 0: invalid start byte".

(** The interpreter's wording when an ASCII standard output is given the
    euro sign first. *)
Definition no_euro_text : pystr :=
  text "'ascii' codec can't encode character '\u20ac' in position 0: ordinal not in range(128)".

(** A network without faults in front of the router; the local key file
    holds [keyfile]; the standard output is UTF-8. *)
Definition router_env (keyfile : pystr) : Env Router :=
  mkEnv (fun _ _ _ => None) (fun _ _ => []) (fun _ _ _ _ => None)
        router_exec (fun _ => inr keyfile)
        (fun _ => stray_byte_text) (fun _ => true) (fun _ => no_euro_text).

(** A remote host that answers every command with the same channel
    contents; the standard output is UTF-8. *)
Definition fixed_env (ch : channel) : Env unit :=
  mkEnv (fun _ _ _ => None) (fun _ _ => []) (fun _ _ _ _ => None)
        (fun _ r => (r, inr ch)) (fun _ => inr [])
        (fun _ => stray_byte_text) (fun _ => true) (fun _ => no_euro_text).

(** The same remote host seen from a process whose standard output is
    ASCII. *)
Definition ascii_stdout_env (ch : channel) : Env unit :=
  mkEnv (fun _ _ _ => None) (fun _ _ => []) (fun _ _ _ _ => None)
        (fun _ r => (r, inr ch)) (fun _ => inr [])
        (fun _ => stray_byte_text) (fun _ => false) (fun _ => no_euro_text).

(** A user who interrupts the connection attempt. *)
Definition impatient_env : Env unit :=
  mkEnv (fun _ _ _ => Some KeyboardInterrupt) (fun _ _ => [])
        (fun _ _ _ _ => None)
        (fun _ r => (r, inr (mkChannel [] [] 0))) (fun _ => inr [])
        (fun _ => stray_byte_text) (fun _ => true) (fun _ => no_euro_text).

(** A remote host whose commands flood their standard error. *)
Definition flooding_env : Env unit :=
  mkEnv (fun _ _ _ => None) (fun _ _ => []) (fun _ _ _ _ => None)
        (fun _ r => (r, inl Stalls)) (fun _ => inr [])
        (fun _ => stray_byte_text) (fun _ => true) (fun _ => no_euro_text).

(** ** What an invocation of the command runner meets *)

(** [sys.argv] without the program's name. *)
Definition arguments (argv : list pystr) : list pystr := tl argv.

Section Invocation.

Variable Remote : Type.
Variable env : Env Remote.
Variables host user password command : pystr.
Variable r : Remote.

(** Connect and execute succeed: the network and the server raise nothing
    and [exec_command] hands back the channel [ch]. *)
Definition connects_and_executes (ch : channel) : Prop :=
  transport_fault env host 15 r = None /\
  auth_fault env host user password r = None /\
  snd (remote_exec env command r) = inr ch.

(** ... and both captured streams are UTF-8: the run gets as far as
    closing the session. *)
Definition succeeds (ch : channel) (out err : pystr) : Prop :=
  connects_and_executes ch /\
  utf8_decode (ch_stdout ch) = Some out /\
  utf8_decode (ch_stderr ch) = Some err.

(** ... and the standard output of the process can encode what the command
    wrote to its own. *)
Definition relays (ch : channel) (out err : pystr) : Prop :=
  succeeds ch out err /\ forallb (encodable env) out = true.

(** ... or cannot. *)
Definition refused (ch : channel) (out err : pystr) : Prop :=
  succeeds ch out err /\ forallb (encodable env) out = false.

(** What the refused [print] raises. *)
Definition refusal (out : pystr) : exception :=
  Exc UnicodeEncodeError (encode_error_text env out).

(** The first instance of [Exception] an invocation meets before it has
    closed the session, in the order of the calls. *)
Inductive fails : exception -> Prop :=
| transport_fails (e : exception) :
    transport_fault env host 15 r = Some (Instance e) -> fails e
| auth_fails (e : exception) :
    transport_fault env host 15 r = None ->
    auth_fault env host user password r = Some (Instance e) -> fails e
| exec_fails (e : exception) :
    transport_fault env host 15 r = None ->
    auth_fault env host user password r = None ->
    snd (remote_exec env command r) = inl (Raises (Instance e)) -> fails e
| stdout_undecodable ch :
    connects_and_executes ch ->
    utf8_decode (ch_stdout ch) = None ->
    fails (Exc UnicodeDecodeError (decode_error_text env (ch_stdout ch)))
| stderr_undecodable ch out :
    connects_and_executes ch ->
    utf8_decode (ch_stdout ch) = Some out ->
    utf8_decode (ch_stderr ch) = None ->
    fails (Exc UnicodeDecodeError (decode_error_text env (ch_stderr ch))).

(** The user interrupts the connection, the sending of the command or the
    wait for its output. *)
Definition interrupted : Prop :=
  transport_fault env host 15 r = Some KeyboardInterrupt
  \/ (transport_fault env host 15 r = None
      /\ auth_fault env host user password r = Some KeyboardInterrupt)
  \/ (transport_fault env host 15 r = None
      /\ auth_fault env host user password r = None
      /\ (snd (remote_exec env command r) = inl (Raises KeyboardInterrupt)
          \/ snd (remote_exec env command r) = inl Abandoned)).

(** The command is sent and never ends its streams. *)
Definition stalls : Prop :=
  transport_fault env host 15 r = None
  /\ auth_fault env host user password r = None
  /\ snd (remote_exec env command r) = inl Stalls.

End Invocation.

(** The three error kinds of the runner's contract and what the caller is
    told for each. *)
Inductive error_kind : Type := AuthError | ProtocolError | ConnectionError.

Definition kind_of (e : exception) : error_kind :=
  if isinstance e AuthenticationException then AuthError
  else if isinstance e SSHException then ProtocolError
  else ConnectionError.

Definition diagnostic (e : exception) : pystr :=
  match kind_of e with
  | AuthError => text "Authentication failed"
  | ProtocolError => text "SSH error: " ++ exc_str e
  | ConnectionError => text "Connection error: " ++ exc_str e
  end.

(** Every occurrence of [b] in [l] comes after an [a]. *)
Definition precedes (a b : event) (l : list event) : Prop :=
  forall l1 l2, l = l1 ++ b :: l2 -> In a l1.

Definition log_of {Remote} (res : termination * World Remote) : list event :=
  w_log (snd res).

(** The calls every invocation with enough arguments starts with. *)
Definition opening (host user password : pystr) (timeout : Z) : list event :=
  [EvNewClient; EvSetPolicy AutoAddPolicy; EvConnect host user password timeout].

(** ** Sample invocations *)

Definition sample_argv : list pystr :=
  [text "ssh-helper.py"; text "router"; text "admin"; text "secret"; text "ls -l"].

(** A command that writes to both streams and exits with 7. *)
Definition both_streams_exit_7 : channel :=
  mkChannel (utf8_encode (text "hello")) (utf8_encode (text "warn")) 7.

(** A command that exits with 0 after writing one byte that is no UTF-8. *)
Definition stray_byte : channel := mkChannel [xff] [] 0.

(** A server that rejects the password. *)
Definition wrong_password_env : Env unit :=
  mkEnv (fun _ _ _ => None) (fun _ _ => [])
        (fun _ _ _ _ => Some (Instance (Exc AuthenticationException
                                            (text "Authentication failed."))))
        (fun _ r => (r, inr both_streams_exit_7)) (fun _ => inr [])
        (fun _ => stray_byte_text) (fun _ => true) (fun _ => no_euro_text).

Definition refusal_text : pystr :=
  text "ChannelException(1, 'Administratively prohibited')".

(** A server that accepts the session and then refuses the channel. *)
Definition no_channel_env : Env unit :=
  mkEnv (fun _ _ _ => None) (fun _ _ => []) (fun _ _ _ _ => None)
        (fun _ r => (r, inl (Raises (Exc ChannelException refusal_text))))
        (fun _ => inr [])
        (fun _ => stray_byte_text) (fun _ => true) (fun _ => no_euro_text).

(** A host nobody answers for. *)
Definition unreachable_env : Env unit :=
  mkEnv (fun _ _ _ => Some (Instance (Exc TimeoutError (text "timed out"))))
        (fun _ _ => []) (fun _ _ _ _ => None)
        (fun _ r => (r, inr both_streams_exit_7)) (fun _ => inr [])
        (fun _ => stray_byte_text) (fun _ => true) (fun _ => no_euro_text).

(** ** Worlds and logs the properties speak of *)

Definition logged {Remote} (w : World Remote) (l : list event) : World Remote :=
  mkWorld (w_remote w) (w_client w) (w_log w ++ l).

(** The client once [connect] has let the server's key through, before and
    after authentication. *)
Definition trusting (host : pystr) (key : host_key) (on : bool) : SSHClient :=
  mkClient AutoAddPolicy [(host, key)] on.

(** What the process writes once the session is closed. *)
Definition relay (out err : pystr) : list event :=
  EvWrite Stdout out
  :: match err with [] => [] | _ :: _ => [EvWrite Stderr err] end.

(** The calls made on the channel before a failure. *)
Definition attempted (command : pystr) (n : nat) : list event :=
  firstn n [EvExec command; EvRead Stdout; EvRead Stderr].

(** ** The key-append script's literals and calls *)

Definition keyfile_path : pystr := text "C:/Users/Shadow-PC/.ssh/id_rsa.pub".
Definition router_host : pystr := text "192.168.178.3".
Definition router_user : pystr := text "admin".
Definition router_password : pystr := text "Mel21isas".
Definition get_keys : pystr := text "nvram get sshd_authkeys".
Definition already_present : pystr := text "Key already in nvram".
Definition key_added : pystr :=
  text "Key added to /jffs/.ssh/authorized_keys and /etc/dropbear/".

(** The calls up to the comparison. *)
Definition lookup_calls : list event :=
  EvOpenFile keyfile_path
  :: opening router_host router_user router_password 10
  ++ [EvExec get_keys; EvRead Stdout].

(** The calls of the branch that appends. *)
Definition append_calls (pubkey : pystr) : list event :=
  [EvExec (jffs_command pubkey); EvRead Stdout; EvRead Stderr;
   EvExec (dropbear_command pubkey); EvRead Stdout].

(** The script gets as far as the comparison: the key file is read as
    [keyfile], the session is set up, and the first command leaves the remote
    host as [r1] and answers [current] on its standard output. *)
Definition looks_up {Remote} (env : Env Remote) (r : Remote)
           (keyfile : pystr) (r1 : Remote) (current : pystr) : Prop :=
  read_file env keyfile_path = inr keyfile
  /\ transport_fault env router_host 10 r = None
  /\ auth_fault env router_host router_user router_password r = None
  /\ exists ch, remote_exec env get_keys r = (r1, inr ch)
                /\ utf8_decode (ch_stdout ch) = Some current.

(** ** Sample routers *)


Definition sample_key : pystr := text "ssh-rsa AAAA me@pc".

(** The router before the script has ever run: no key anywhere, everything
    writable. *)
Definition blank_router : Router := mkRouter [] true true [] true [].

(** ** Notions for the further properties *)

(** A Unicode scalar value: a code point outside the surrogates. *)
Definition is_scalar (c : N) : bool :=
  ((c <? 0xD800) || (0xE000 <=? c))%N && (c <? 0x110000)%N.

(** One step of [utf8_decode], as a relation: the bytes read, the character
    they stand for, the bytes left. *)
Inductive utf8_step : pybytes -> N -> pybytes -> Prop :=
| step1 b0 r :
    (Byte.to_N b0 < 0x80)%N -> utf8_step (b0 :: r) (Byte.to_N b0) r
| step2 b0 b1 r :
    (0xC2 <= Byte.to_N b0 <= 0xDF)%N ->
    (0x80 <= Byte.to_N b1 <= 0xBF)%N ->
    utf8_step (b0 :: b1 :: r)
              ((Byte.to_N b0 - 0xC0) * 64 + (Byte.to_N b1 - 0x80))%N r
| step3 b0 b1 b2 r :
    (0xE0 <= Byte.to_N b0 <= 0xEF)%N ->
    (0x80 <= Byte.to_N b1 <= 0xBF)%N ->
    (Byte.to_N b0 = 0xE0 -> 0xA0 <= Byte.to_N b1)%N ->
    (Byte.to_N b0 = 0xED -> Byte.to_N b1 <= 0x9F)%N ->
    (0x80 <= Byte.to_N b2 <= 0xBF)%N ->
    utf8_step (b0 :: b1 :: b2 :: r)
              ((Byte.to_N b0 - 0xE0) * 4096 + (Byte.to_N b1 - 0x80) * 64
               + (Byte.to_N b2 - 0x80))%N r
| step4 b0 b1 b2 b3 r :
    (0xF0 <= Byte.to_N b0 <= 0xF4)%N ->
    (0x80 <= Byte.to_N b1 <= 0xBF)%N ->
    (Byte.to_N b0 = 0xF0 -> 0x90 <= Byte.to_N b1)%N ->
    (Byte.to_N b0 = 0xF4 -> Byte.to_N b1 <= 0x8F)%N ->
    (0x80 <= Byte.to_N b2 <= 0xBF)%N ->
    (0x80 <= Byte.to_N b3 <= 0xBF)%N ->
    utf8_step (b0 :: b1 :: b2 :: b3 :: r)
              ((Byte.to_N b0 - 0xF0) * 262144 + (Byte.to_N b1 - 0x80) * 4096
               + (Byte.to_N b2 - 0x80) * 64 + (Byte.to_N b3 - 0x80))%N r.

Definition is_connect (e : event) : bool :=
  match e with EvConnect _ _ _ _ => true | _ => false end.

Definition is_exec (e : event) : bool :=
  match e with EvExec _ => true | _ => false end.

(** A character a shell leaves as it is between double quotes: none of the
    double quote, the dollar, the backslash and the backquote. *)
Definition shell_plain (c : N) : bool :=
  negb ((c =? 34)%N || (c =? 36)%N || (c =? 92)%N || (c =? 96)%N).

(** A key [echo] prints as it is: plain characters, and no leading dash to
    be taken for an option. *)
Definition plain_key (k : pystr) : bool :=
  forallb shell_plain k && negb (startswith k [45%N]).

(** A world-writable router whose nvram variable holds [nvram] and whose two
    key files hold [jffs] and [dropbear]; [dir] tells whether [/jffs/.ssh]
    exists. *)
Definition writable_router (nvram : pybytes) (dir : bool)
           (jffs dropbear : pybytes) : Router :=
  mkRouter nvram true dir jffs true dropbear.

(** ** Further samples *)

(** A command whose standard output is text and whose standard error is one
    byte that is no UTF-8. *)
Definition stray_stderr : channel :=
  mkChannel (utf8_encode (text "hello")) [xff] 0.

(** A price in euros, and a command that prints it. *)
Definition price : pystr := [0x20AC; 0x35]%N.

Definition prints_price : channel := mkChannel (utf8_encode price) [] 0.

(** A command killed by a signal: the server sends no exit status and the
    library answers -1. *)
Definition no_exit_status : channel :=
  mkChannel (utf8_encode (text "partial")) [] (-1).

(** A machine without the key file. *)
Definition no_keyfile_env : Env Router :=
  mkEnv (fun _ _ _ => None) (fun _ _ => []) (fun _ _ _ _ => None)
        router_exec
        (fun _ => inl (Instance (Exc FileNotFoundError
                                     (text "[Errno 2] No such file or directory"))))
        (fun _ => stray_byte_text) (fun _ => true) (fun _ => no_euro_text).

(** * Properties *)

Arguments text : simpl never.
Arguments exit_status : simpl never.
Arguments encodable : simpl never.

Ltac unfold_script :=
  unfold log_of, run, main_try, add_key_nvram, connect, exec_command,
    SSHClient_new, set_missing_host_key_policy, close, recv_exit_status, read,
    decode, open_read, print, sys_exit, emit, set_client,
    set_remote, get_world, raise, block, bind, ret, start, terminate.

Lemma stdout_takes_ascii :
  forall Remote (env : Env Remote) (t : pystr),
    forallb is_ascii t = true -> forallb (encodable env) t = true.
Proof.
  intros Remote env t H. apply forallb_forall. intros c Hc.
  unfold encodable. rewrite (proj1 (forallb_forall is_ascii t) H c Hc).
  reflexivity.
Qed.

(** Let a literal through the standard output. *)
Ltac literal_prints :=
  repeat match goal with
         | |- context [forallb (encodable ?e) ?t] =>
           rewrite (@stdout_takes_ascii _ e t eq_refl)
         end.

Lemma exit_status_byte :
  forall code : Z, (0 <= code < 256)%Z -> exit_status code = code.
Proof. intros code H. unfold exit_status. now apply Z.mod_small. Qed.

Section RunnerLemmas.

Variable Remote : Type.
Variable env : Env Remote.

Lemma except_clause :
  forall (e : exception) (w : World Remote),
    match find (fun h => isinstance e (fst h)) (@main_except Remote env) with
    | Some h => snd h e w
    | None => (Raise (RaiseExc e), w)
    end
    = (Raise (SystemExit 255),
       logged w [EvWrite Stderr (diagnostic e ++ newline)]).
Proof.
  intros [c s] w. destruct c; reflexivity.
Qed.

Lemma try_except_main :
  forall (body : M Remote unit) (w : World Remote),
    try_except body (main_except env) w
    = match body w with
      | (Raise (RaiseExc (Instance e)), w') =>
        (Raise (SystemExit 255),
         logged w' [EvWrite Stderr (diagnostic e ++ newline)])
      | other => other
      end.
Proof.
  intros body w. unfold try_except.
  destruct (body w) as [[a|[[e|]|code]|] w']; auto using except_clause.
Qed.

Lemma main_enough_args :
  forall prog host user password command extra (w : World Remote),
    main env (prog :: host :: user :: password :: command :: extra) w
    = try_except (main_try env host user password command) (main_except env) w.
Proof. reflexivity. Qed.

Variables host user password command : pystr.
Variable r : Remote.

Let key := server_key env host r.

Lemma main_try_transport_raises :
  forall t : thrown,
    transport_fault env host 15 r = Some t ->
    main_try env host user password command (start r)
    = (Raise (RaiseExc t),
       mkWorld r (mkClient AutoAddPolicy [] false)
               (opening host user password 15)).
Proof.
  intros t H. unfold_script. cbn. rewrite H. reflexivity.
Qed.

Lemma main_try_auth_raises :
  forall t : thrown,
    transport_fault env host 15 r = None ->
    auth_fault env host user password r = Some t ->
    main_try env host user password command (start r)
    = (Raise (RaiseExc t),
       mkWorld r (trusting host key false) (opening host user password 15)).
Proof.
  intros t H1 H2. unfold_script. cbn. rewrite H1. cbn. rewrite H2. reflexivity.
Qed.

Lemma main_try_exec_raises :
  forall t : thrown,
    transport_fault env host 15 r = None ->
    auth_fault env host user password r = None ->
    snd (remote_exec env command r) = inl (Raises t) ->
    main_try env host user password command (start r)
    = (Raise (RaiseExc t),
       mkWorld (fst (remote_exec env command r)) (trusting host key true)
               (opening host user password 15 ++ [EvExec command])).
Proof.
  intros t H1 H2 H3. unfold_script. cbn. rewrite H1. cbn. rewrite H2. cbn.
  destruct (remote_exec env command r) as [r' res]. cbn in *. subst res.
  reflexivity.
Qed.

Lemma main_try_stalls :
  stalls env host user password command r ->
  main_try env host user password command (start r)
  = (Blocked,
     mkWorld (fst (remote_exec env command r)) (trusting host key true)
             (opening host user password 15
              ++ [EvExec command; EvRead Stdout])).
Proof.
  intros (H1 & H2 & H3). unfold_script. cbn. rewrite H1. cbn. rewrite H2. cbn.
  destruct (remote_exec env command r) as [r' res]. cbn in *. subst res.
  reflexivity.
Qed.

Lemma main_try_abandoned :
  transport_fault env host 15 r = None ->
  auth_fault env host user password r = None ->
  snd (remote_exec env command r) = inl Abandoned ->
  main_try env host user password command (start r)
  = (Raise (RaiseExc KeyboardInterrupt),
     mkWorld (fst (remote_exec env command r)) (trusting host key true)
             (opening host user password 15
              ++ [EvExec command; EvRead Stdout])).
Proof.
  intros H1 H2 H3. unfold_script. cbn. rewrite H1. cbn. rewrite H2. cbn.
  destruct (remote_exec env command r) as [r' res]. cbn in *. subst res.
  reflexivity.
Qed.

Lemma main_try_stdout_undecodable :
  forall ch,
    connects_and_executes env host user password command r ch ->
    utf8_decode (ch_stdout ch) = None ->
    main_try env host user password command (start r)
    = (Raise (RaiseExc (Exc UnicodeDecodeError
                            (decode_error_text env (ch_stdout ch)))),
       mkWorld (fst (remote_exec env command r)) (trusting host key true)
               (opening host user password 15
                ++ [EvExec command; EvRead Stdout])).
Proof.
  intros ch (H1 & H2 & H3) H4. unfold_script. cbn. rewrite H1. cbn.
  rewrite H2. cbn.
  destruct (remote_exec env command r) as [r' res]. cbn in *. subst res.
  cbn. rewrite H4. reflexivity.
Qed.

Lemma main_try_stderr_undecodable :
  forall ch out,
    connects_and_executes env host user password command r ch ->
    utf8_decode (ch_stdout ch) = Some out ->
    utf8_decode (ch_stderr ch) = None ->
    main_try env host user password command (start r)
    = (Raise (RaiseExc (Exc UnicodeDecodeError
                            (decode_error_text env (ch_stderr ch)))),
       mkWorld (fst (remote_exec env command r)) (trusting host key true)
               (opening host user password 15
                ++ [EvExec command; EvRead Stdout; EvRead Stderr])).
Proof.
  intros ch out (H1 & H2 & H3) H4 H5. unfold_script. cbn. rewrite H1. cbn.
  rewrite H2. cbn.
  destruct (remote_exec env command r) as [r' res]. cbn in *. subst res.
  cbn. rewrite H4. cbn. rewrite H5. reflexivity.
Qed.

Lemma main_try_relays :
  forall ch out err,
    relays env host user password command r ch out err ->
    main_try env host user password command (start r)
    = (Raise (SystemExit (ch_status ch)),
       mkWorld (fst (remote_exec env command r)) (trusting host key false)
               (opening host user password 15
                ++ [EvExec command; EvRead Stdout; EvRead Stderr;
                    EvRecvExitStatus; EvClose]
                ++ relay out err)).
Proof.
  intros ch out err (((H1 & H2 & H3) & H4 & H5) & H6). unfold_script. cbn.
  rewrite H1. cbn. rewrite H2. cbn.
  destruct (remote_exec env command r) as [r' res]. cbn in *. subst res.
  cbn. rewrite H4. cbn. rewrite H5. cbn. rewrite !app_nil_r, H6. cbn.
  destruct err; cbn; rewrite ?app_nil_r; reflexivity.
Qed.

Lemma main_try_refused :
  forall ch out err,
    refused env host user password command r ch out err ->
    main_try env host user password command (start r)
    = (Raise (RaiseExc (refusal env out)),
       mkWorld (fst (remote_exec env command r)) (trusting host key false)
               (opening host user password 15
                ++ [EvExec command; EvRead Stdout; EvRead Stderr;
                    EvRecvExitStatus; EvClose])).
Proof.
  intros ch out err (((H1 & H2 & H3) & H4 & H5) & H6). unfold_script. cbn.
  rewrite H1. cbn. rewrite H2. cbn.
  destruct (remote_exec env command r) as [r' res]. cbn in *. subst res.
  cbn. rewrite H4. cbn. rewrite H5. cbn. rewrite !app_nil_r, H6.
  reflexivity.
Qed.

End RunnerLemmas.

(** ** The command runner, case by case *)

Section RunnerOutcomes.

Variable Remote : Type.
Variable env : Env Remote.
Variables prog host user password command : pystr.
Variable extra : list pystr.
Variable r : Remote.

Let argv := prog :: host :: user :: password :: command :: extra.

Lemma run_main_relays :
  forall ch out err,
    relays env host user password command r ch out err ->
    run (main env argv) r
    = (Exited (exit_status (ch_status ch)),
       mkWorld (fst (remote_exec env command r))
               (trusting host (server_key env host r) false)
               (opening host user password 15
                ++ [EvExec command; EvRead Stdout; EvRead Stderr;
                    EvRecvExitStatus; EvClose]
                ++ relay out err)).
Proof.
  intros ch out err H. unfold run, argv.
  rewrite main_enough_args, try_except_main,
    (@main_try_relays Remote env host user password command r ch out err H).
  reflexivity.
Qed.

Lemma run_main_refused :
  forall ch out err,
    refused env host user password command r ch out err ->
    run (main env argv) r
    = (Exited 255,
       mkWorld (fst (remote_exec env command r))
               (trusting host (server_key env host r) false)
               (opening host user password 15
                ++ [EvExec command; EvRead Stdout; EvRead Stderr;
                    EvRecvExitStatus; EvClose]
                ++ [EvWrite Stderr (diagnostic (refusal env out) ++ newline)])).
Proof.
  intros ch out err H. unfold run, argv.
  rewrite main_enough_args, try_except_main,
    (@main_try_refused Remote env host user password command r ch out err H).
  cbn. unfold logged. cbn. rewrite <- !app_assoc. reflexivity.
Qed.

Lemma run_main_fails :
  forall e,
    fails env host user password command r e ->
    exists n w,
      run (main env argv) r = (Exited 255, w)
      /\ w_log w = opening host user password 15 ++ attempted command n
                   ++ [EvWrite Stderr (diagnostic e ++ newline)]
      /\ w_remote w = match n with
                      | 0 => r
                      | _ => fst (remote_exec env command r)
                      end
      /\ active (w_client w) = match n with 0 => false | _ => true end.
Proof.
  intros e H. unfold run, argv.
  rewrite main_enough_args, try_except_main.
  destruct H as [e H|e H1 H2|e H1 H2 H3|ch H1 H2|ch out H1 H2 H3].
  - rewrite (@main_try_transport_raises Remote env host user password command
                                        r e H).
    exists 0. eexists. repeat split.
  - rewrite (@main_try_auth_raises Remote env host user password command
                                   r e H1 H2).
    exists 0. eexists. repeat split.
  - rewrite (@main_try_exec_raises Remote env host user password command
                                   r e H1 H2 H3).
    exists 1. eexists. repeat split.
  - rewrite (@main_try_stdout_undecodable Remote env host user password
                                          command r ch H1 H2).
    exists 2. eexists. repeat split.
  - rewrite (@main_try_stderr_undecodable Remote env host user password
                                          command r ch out H1 H2 H3).
    exists 3. eexists. repeat split.
Qed.

Lemma run_main_interrupted :
  interrupted env host user password command r ->
  exists n w,
    run (main env argv) r = (Traceback KeyboardInterrupt, w)
    /\ w_log w = opening host user password 15 ++ attempted command n
    /\ n <= 2.
Proof.
  intro H. unfold run, argv. rewrite main_enough_args, try_except_main.
  destruct H as [H|[[H1 H2]|(H1 & H2 & [H3|H3])]].
  4:{ rewrite (@main_try_abandoned Remote env host user password command r
                                  H1 H2 H3).
      exists 2. eexists. cbn. repeat split. lia. }
  - rewrite (@main_try_transport_raises Remote env host user password command
                                        r KeyboardInterrupt H).
    exists 0. eexists. cbn. rewrite ?app_nil_r. repeat split. lia.
  - rewrite (@main_try_auth_raises Remote env host user password command
                                   r KeyboardInterrupt H1 H2).
    exists 0. eexists. cbn. rewrite ?app_nil_r. repeat split. lia.
  - rewrite (@main_try_exec_raises Remote env host user password command
                                   r KeyboardInterrupt H1 H2 H3).
    exists 1. eexists. cbn. repeat split. lia.
Qed.

Lemma run_main_stalls :
  stalls env host user password command r ->
  run (main env argv) r
  = (Hangs,
     mkWorld (fst (remote_exec env command r))
             (trusting host (server_key env host r) true)
             (opening host user password 15
              ++ [EvExec command; EvRead Stdout])).
Proof.
  intro H. unfold run, argv.
  rewrite main_enough_args, try_except_main,
    (@main_try_stalls Remote env host user password command r H).
  reflexivity.
Qed.

(** Once [connect] has returned the command is sent, whatever comes of it. *)
Lemma run_main_connected :
  transport_fault env host 15 r = None ->
  auth_fault env host user password r = None ->
  exists t on rest,
    run (main env argv) r
    = (t, mkWorld (fst (remote_exec env command r))
                  (trusting host (server_key env host r) on)
                  (opening host user password 15 ++ EvExec command :: rest)).
Proof.
  intros H1 H2. unfold run, argv. rewrite main_enough_args, try_except_main.
  destruct (snd (remote_exec env command r)) as [[[e|]| |]|ch] eqn:H3.
  { rewrite (@main_try_exec_raises Remote env host user password command r
                                   e H1 H2 H3).
    do 3 eexists. reflexivity. }
  { rewrite (@main_try_exec_raises Remote env host user password command r
                                   KeyboardInterrupt H1 H2 H3).
    do 3 eexists. reflexivity. }
  { rewrite (@main_try_stalls Remote env host user password command r
                              (conj H1 (conj H2 H3))).
    do 3 eexists. reflexivity. }
  { rewrite (@main_try_abandoned Remote env host user password command r
                                 H1 H2 H3).
    do 3 eexists. reflexivity. }
  assert (Hc : connects_and_executes env host user password command r ch)
    by (repeat split; assumption).
  destruct (utf8_decode (ch_stdout ch)) as [out|] eqn:H4.
  2:{ rewrite (@main_try_stdout_undecodable Remote env host user password
                                            command r ch Hc H4).
      do 3 eexists. reflexivity. }
  destruct (utf8_decode (ch_stderr ch)) as [err|] eqn:H5.
  2:{ rewrite (@main_try_stderr_undecodable Remote env host user password
                                            command r ch out Hc H4 H5).
      do 3 eexists. reflexivity. }
  assert (Hs : succeeds env host user password command r ch out err)
    by (repeat split; assumption).
  destruct (forallb (encodable env) out) eqn:H6.
  - rewrite (@main_try_relays Remote env host user password command r
                              ch out err (conj Hs H6)).
    do 3 eexists. reflexivity.
  - rewrite (@main_try_refused Remote env host user password command r
                               ch out err (conj Hs H6)).
    do 3 eexists. reflexivity.
Qed.

(** What an invocation with enough arguments meets, all cases told. *)
Lemma what_a_run_meets :
  (exists ch out err, relays env host user password command r ch out err)
  \/ (exists ch out err, refused env host user password command r ch out err)
  \/ (exists e, fails env host user password command r e)
  \/ interrupted env host user password command r
  \/ stalls env host user password command r.
Proof.
  destruct (transport_fault env host 15 r) as [[e|]|] eqn:H1.
  { right. right. left. exists e. now apply transport_fails. }
  { right. right. right. left. now left. }
  destruct (auth_fault env host user password r) as [[e|]|] eqn:H2.
  { right. right. left. exists e. now apply auth_fails. }
  { right. right. right. left. right. left. now split. }
  destruct (snd (remote_exec env command r)) as [[[e|]| |]|ch] eqn:H3.
  { right. right. left. exists e. now apply exec_fails. }
  { right. right. right. left. right. right. repeat split; tauto. }
  { right. right. right. right. repeat split; assumption. }
  { right. right. right. left. right. right. repeat split; tauto. }
  assert (Hc : connects_and_executes env host user password command r ch)
    by (repeat split; assumption).
  destruct (utf8_decode (ch_stdout ch)) as [out|] eqn:H4.
  2:{ right. right. left. eexists. eapply stdout_undecodable; eassumption. }
  destruct (utf8_decode (ch_stderr ch)) as [err|] eqn:H5.
  2:{ right. right. left. eexists. eapply stderr_undecodable; eassumption. }
  assert (Hs : succeeds env host user password command r ch out err)
    by (repeat split; assumption).
  destruct (forallb (encodable env) out) eqn:H6.
  - left. exists ch, out, err. now split.
  - right. left. exists ch, out, err. now split.
Qed.

Lemma no_close_before_failure :
  forall n e,
    ~ In EvClose (opening host user password 15 ++ attempted command n
                  ++ [EvWrite Stderr (diagnostic e ++ newline)]).
Proof.
  intros n e. unfold attempted.
  destruct n as [|[|[|n]]]; cbn; rewrite ?firstn_nil; cbn;
    intuition discriminate.
Qed.

Lemma no_close_when_interrupted :
  forall n, ~ In EvClose (opening host user password 15 ++ attempted command n).
Proof.
  intros n. unfold attempted.
  destruct n as [|[|[|n]]]; cbn; rewrite ?firstn_nil; cbn;
    intuition discriminate.
Qed.

Lemma no_stdout_before_failure :
  forall n e t,
    ~ In (EvWrite Stdout t) (opening host user password 15 ++ attempted command n
                             ++ [EvWrite Stderr (diagnostic e ++ newline)]).
Proof.
  intros n e t. unfold attempted.
  destruct n as [|[|[|n]]]; cbn; rewrite ?firstn_nil; cbn;
    intuition discriminate.
Qed.

Lemma no_stdout_when_interrupted :
  forall n t,
    ~ In (EvWrite Stdout t) (opening host user password 15
                             ++ attempted command n).
Proof.
  intros n t. unfold attempted.
  destruct n as [|[|[|n]]]; cbn; rewrite ?firstn_nil; cbn;
    intuition discriminate.
Qed.

End RunnerOutcomes.

(** ** Argument validation *)

Lemma main_too_few_args :
  forall Remote (env : Env Remote) (argv : list pystr) (w : World Remote),
    List.length argv < 5 ->
    main env argv w
    = (Raise (SystemExit 1), logged w [EvWrite Stderr (usage ++ newline)]).
Proof.
  intros Remote env argv w H.
  do 5 (destruct argv as [|? argv]; [reflexivity|]).
  cbn in H. lia.
Qed.

Lemma arguments_length :
  forall argv : list pystr,
    List.length (arguments argv) < 4 <-> List.length argv < 5.
Proof.
  intros [|prog argv]; cbn; lia.
Qed.

(** C6: with fewer than four command-line arguments the program writes the
    usage message to its standard error and exits with 1, and that is all it
    does: no client is made and no connection attempted. *)
Theorem usage_error_before_any_connection :
  forall Remote (env : Env Remote) (argv : list pystr) (r : Remote),
    List.length (arguments argv) < 4 ->
    run (main env argv) r
    = (Exited 1, mkWorld r fresh_client [EvWrite Stderr (usage ++ newline)]).
Proof.
  intros Remote env argv r H. apply arguments_length in H.
  unfold run. rewrite (main_too_few_args env argv (start r) H).
  reflexivity.
Qed.

Lemma usage_error_before_any_connection_witness :
  run (main (fixed_env both_streams_exit_7)
            [text "ssh-helper.py"; text "router"; text "admin"; text "secret"]) tt
  = (Exited 1, mkWorld tt fresh_client [EvWrite Stderr (usage ++ newline)]).
Proof.
  apply usage_error_before_any_connection. cbn. lia.
Defined.

(** ** The codec of [decode] *)


Lemma N_to_byte_to_N : forall b, N_to_byte (Byte.to_N b) = b.
Proof. intro b. unfold N_to_byte. now rewrite Byte.of_to_N. Qed.

Lemma radix64 : forall c : N,
  exists q1 q2 q3 d0 d1 d2 : N,
    ((c / 64) mod 64 = d1 /\ (c / 4096) mod 64 = d2 /\ c mod 64 = d0
     /\ c / 64 = q1 /\ c / 4096 = q2 /\ c / 262144 = q3)%N
    /\ (c = 64 * q1 + d0 /\ q1 = 64 * q2 + d1 /\ q2 = 64 * q3 + d2
        /\ d0 < 64 /\ d1 < 64 /\ d2 < 64)%N.
Proof.
  intro c.
  exists (c / 64)%N, (c / 4096)%N, (c / 262144)%N,
         (c mod 64)%N, ((c / 64) mod 64)%N, ((c / 4096) mod 64)%N.
  split; [repeat split|].
  change 4096%N with (64 * 64)%N. change 262144%N with (64 * 64 * 64)%N.
  rewrite <- !N.Div0.div_div.
  repeat split; try apply N.div_mod'; apply N.mod_lt; discriminate.
Qed.

(** Name the base-64 digits of [c] and forget how they were computed. *)
Ltac digits c :=
  let q1 := fresh "q" in let q2 := fresh "q" in let q3 := fresh "q" in
  let d0 := fresh "d" in let d1 := fresh "d" in let d2 := fresh "d" in
  let E1 := fresh in let E2 := fresh in let E3 := fresh in
  let E4 := fresh in let E5 := fresh in let E6 := fresh in
  let R := fresh "R" in
  destruct (radix64 c)
    as (q1 & q2 & q3 & d0 & d1 & d2 & (E1 & E2 & E3 & E4 & E5 & E6) & R);
  rewrite ?E1, ?E2, ?E3, ?E4, ?E5, ?E6; clear E1 E2 E3 E4 E5 E6.

(** Decide every comparison in the goal, closing the impossible cases. *)
Ltac bools :=
  repeat match goal with
         | |- context [(?a <? ?b)%N] => destruct (N.ltb_spec a b); try lia
         | |- context [(?a <=? ?b)%N] => destruct (N.leb_spec a b); try lia
         | |- context [(?a =? ?b)%N] => destruct (N.eqb_spec a b); try lia
         end.


(** Unfold the range tests of the decoder. *)
Ltac ranges := unfold second_ok3, second_ok4, is_cont, in_range; cbn zeta.







Lemma N_to_byte_eq : forall n b, n = Byte.to_N b -> N_to_byte n = b.
Proof. intros n b ->. apply N_to_byte_to_N. Qed.

Lemma is_scalar_true :
  forall c, ((c < 0xD800 \/ 0xE000 <= c) /\ c < 0x110000)%N -> is_scalar c = true.
Proof.
  intros c [H1 H2]. unfold is_scalar.
  apply andb_true_iff. split; [|now apply N.ltb_lt].
  apply orb_true_iff. rewrite N.ltb_lt, N.leb_le. exact H1.
Qed.

Lemma encode_char_1 :
  forall b0, (Byte.to_N b0 < 0x80)%N -> utf8_encode_char (Byte.to_N b0) = [b0].
Proof.
  intros b0 H. unfold utf8_encode_char.
  destruct (N.ltb_spec (Byte.to_N b0) 0x80); [|lia].
  now rewrite N_to_byte_to_N.
Qed.

Lemma encode_char_2 :
  forall b0 b1,
    (0xC2 <= Byte.to_N b0 <= 0xDF)%N ->
    (0x80 <= Byte.to_N b1 <= 0xBF)%N ->
    utf8_encode_char ((Byte.to_N b0 - 0xC0) * 64 + (Byte.to_N b1 - 0x80))%N
    = [b0; b1].
Proof.
  intros b0 b1 H0 H1. unfold utf8_encode_char.
  set (c := ((Byte.to_N b0 - 0xC0) * 64 + (Byte.to_N b1 - 0x80))%N).
  assert (Hc : (c = (Byte.to_N b0 - 0xC0) * 64 + (Byte.to_N b1 - 0x80))%N)
    by reflexivity.
  clearbody c. digits c. bools.
  f_equal; [|f_equal]; apply N_to_byte_eq; lia.
Qed.

Lemma encode_char_3 :
  forall b0 b1 b2,
    (0xE0 <= Byte.to_N b0 <= 0xEF)%N ->
    (0x80 <= Byte.to_N b1 <= 0xBF)%N ->
    (Byte.to_N b0 = 0xE0 -> 0xA0 <= Byte.to_N b1)%N ->
    (0x80 <= Byte.to_N b2 <= 0xBF)%N ->
    utf8_encode_char ((Byte.to_N b0 - 0xE0) * 4096
                      + (Byte.to_N b1 - 0x80) * 64
                      + (Byte.to_N b2 - 0x80))%N
    = [b0; b1; b2].
Proof.
  intros b0 b1 b2 H0 H1 Ha H2. unfold utf8_encode_char.
  set (c := ((Byte.to_N b0 - 0xE0) * 4096 + (Byte.to_N b1 - 0x80) * 64
             + (Byte.to_N b2 - 0x80))%N).
  assert (Hc : (c = (Byte.to_N b0 - 0xE0) * 4096 + (Byte.to_N b1 - 0x80) * 64
                    + (Byte.to_N b2 - 0x80))%N) by reflexivity.
  clearbody c. digits c. bools.
  f_equal; [|f_equal; [|f_equal]]; apply N_to_byte_eq; lia.
Qed.

Lemma encode_char_4 :
  forall b0 b1 b2 b3,
    (0xF0 <= Byte.to_N b0 <= 0xF4)%N ->
    (0x80 <= Byte.to_N b1 <= 0xBF)%N ->
    (Byte.to_N b0 = 0xF0 -> 0x90 <= Byte.to_N b1)%N ->
    (0x80 <= Byte.to_N b2 <= 0xBF)%N ->
    (0x80 <= Byte.to_N b3 <= 0xBF)%N ->
    utf8_encode_char ((Byte.to_N b0 - 0xF0) * 262144
                      + (Byte.to_N b1 - 0x80) * 4096
                      + (Byte.to_N b2 - 0x80) * 64
                      + (Byte.to_N b3 - 0x80))%N
    = [b0; b1; b2; b3].
Proof.
  intros b0 b1 b2 b3 H0 H1 Ha H2 H3. unfold utf8_encode_char.
  set (c := ((Byte.to_N b0 - 0xF0) * 262144 + (Byte.to_N b1 - 0x80) * 4096
             + (Byte.to_N b2 - 0x80) * 64 + (Byte.to_N b3 - 0x80))%N).
  assert (Hc : (c = (Byte.to_N b0 - 0xF0) * 262144
                    + (Byte.to_N b1 - 0x80) * 4096
                    + (Byte.to_N b2 - 0x80) * 64 + (Byte.to_N b3 - 0x80))%N)
    by reflexivity.
  clearbody c. digits c. bools.
  f_equal; [|f_equal; [|f_equal; [|f_equal]]]; apply N_to_byte_eq; lia.
Qed.

Lemma utf8_decode_cons_inv :
  forall b0 r0 t,
    utf8_decode (b0 :: r0) = Some t ->
    exists c r t', utf8_step (b0 :: r0) c r /\ utf8_decode r = Some t'
                   /\ t = c :: t'.
Proof.
  intros b0 r0 t. cbn [utf8_decode]. ranges.
  destruct (N.ltb_spec (Byte.to_N b0) 0x80).
  { intro Hdec. destruct (utf8_decode r0) as [t'|] eqn:E; [|discriminate].
    inversion Hdec. exists (Byte.to_N b0), r0, t'. repeat split; auto.
    now constructor. }
  destruct (N.leb_spec 0xC2 (Byte.to_N b0)); cbn [andb];
    [destruct (N.leb_spec (Byte.to_N b0) 0xDF)|]; cbn [andb].
  { destruct r0 as [|b1 r1]; [discriminate|].
    destruct (N.leb_spec 0x80 (Byte.to_N b1)); cbn [andb]; [|discriminate].
    destruct (N.leb_spec (Byte.to_N b1) 0xBF); [|discriminate].
    intro Hdec. destruct (utf8_decode r1) as [t'|] eqn:E; [|discriminate].
    inversion Hdec. eexists _, r1, t'. repeat split; auto.
    constructor; lia. }
  2:{ destruct (N.leb_spec 0xE0 (Byte.to_N b0)); [lia|]. cbn [andb].
      destruct (N.leb_spec 0xF0 (Byte.to_N b0)); [lia|]. discriminate. }
  destruct (N.leb_spec 0xE0 (Byte.to_N b0)); [|lia]. cbn [andb].
  destruct (N.leb_spec (Byte.to_N b0) 0xEF); cbn [andb].
  { destruct r0 as [|b1 [|b2 r2]]; try discriminate.
    destruct (N.eqb_spec (Byte.to_N b0) 0xE0);
      [|destruct (N.eqb_spec (Byte.to_N b0) 0xED)];
      repeat match goal with
             | |- context [(?a <=? ?b)%N] =>
               destruct (N.leb_spec a b); cbn [andb]; try discriminate
             end;
      intro Hdec; (destruct (utf8_decode r2) as [t'|] eqn:E; [|discriminate]);
      inversion Hdec; eexists _, r2, t'; repeat split; auto;
      constructor; lia. }
  destruct (N.leb_spec 0xF0 (Byte.to_N b0)); [|lia]. cbn [andb].
  destruct (N.leb_spec (Byte.to_N b0) 0xF4); cbn [andb]; [|discriminate].
  destruct r0 as [|b1 [|b2 [|b3 r3]]]; try discriminate.
  destruct (N.eqb_spec (Byte.to_N b0) 0xF0);
    [|destruct (N.eqb_spec (Byte.to_N b0) 0xF4)];
    repeat match goal with
           | |- context [(?a <=? ?b)%N] =>
             destruct (N.leb_spec a b); cbn [andb]; try discriminate
           end;
    intro Hdec; (destruct (utf8_decode r3) as [t'|] eqn:E; [|discriminate]);
    inversion Hdec; eexists _, r3, t'; repeat split; auto;
    constructor; lia.
Qed.

Lemma utf8_step_shorter :
  forall b c r, utf8_step b c r -> List.length r < List.length b.
Proof. intros b c r H. destruct H; cbn; lia. Qed.

Lemma utf8_step_encode :
  forall b c r, utf8_step b c r -> utf8_encode_char c ++ r = b.
Proof.
  intros b c r H. destruct H.
  - now rewrite encode_char_1.
  - now rewrite encode_char_2.
  - now rewrite encode_char_3.
  - now rewrite encode_char_4.
Qed.

Lemma utf8_step_scalar :
  forall b c r, utf8_step b c r -> is_scalar c = true.
Proof.
  intros b c r H. apply is_scalar_true. destruct H; lia.
Qed.

Lemma encode_decode :
  forall b t, utf8_decode b = Some t ->
              utf8_encode t = b /\ forallb is_scalar t = true.
Proof.
  intro b. remember (List.length b) as n eqn:Hn. revert b Hn.
  induction n as [n IH] using lt_wf_ind. intros b Hn t H.
  destruct b as [|b0 r0].
  { cbn in H. inversion H. split; reflexivity. }
  apply utf8_decode_cons_inv in H.
  destruct H as (c & r & t' & Hs & Hd & ->).
  assert (Hl : List.length r < List.length (b0 :: r0))
    by (eapply utf8_step_shorter; eassumption).
  destruct (IH (List.length r) ltac:(lia) r eq_refl t' Hd) as [He Hv].
  split.
  - unfold utf8_encode. cbn [flat_map]. fold (utf8_encode t').
    rewrite He. eapply utf8_step_encode; eassumption.
  - cbn [forallb]. rewrite Hv.
    erewrite utf8_step_scalar by eassumption. reflexivity.
Qed.


(** ** What a run of the command runner writes *)

Lemma relay_has_no_exit_status :
  forall out err, ~ In EvRecvExitStatus (relay out err).
Proof.
  intros out [|c err]; cbn; intuition discriminate.
Qed.

Lemma relay_writes_stdout :
  forall out err t, In (EvWrite Stdout t) (relay out err) -> t = out.
Proof.
  intros out [|c err] t H; cbn in H;
    repeat (destruct H as [H|H]; try discriminate; try (now inversion H));
    contradiction.
Qed.

Lemma relay_writes_stderr :
  forall out err u,
    In (EvWrite Stderr u) (relay out err) -> u = err /\ err <> [].
Proof.
  intros out [|c err] u H; cbn in H;
    repeat (destruct H as [H|H]; try discriminate; try contradiction).
  inversion H. split; [reflexivity|discriminate].
Qed.


Lemma run_main_short :
  forall Remote (env : Env Remote) (argv : list pystr) (r : Remote),
    List.length argv < 5 ->
    run (main env argv) r
    = (Exited 1, mkWorld r fresh_client [EvWrite Stderr (usage ++ newline)]).
Proof.
  intros Remote env argv r H. unfold run.
  rewrite (@main_too_few_args Remote env argv (start r) H). reflexivity.
Qed.

Lemma enough_args :
  forall argv : list pystr,
    5 <= List.length argv ->
    exists prog host user password command extra,
      argv = prog :: host :: user :: password :: command :: extra.
Proof.
  intros argv H.
  do 5 (destruct argv as [|? argv]; [cbn in H; lia|]).
  repeat eexists.
Qed.


(** ** The four arguments *)

(** C8: host, user, password and command are the first four arguments:
    whatever follows the fourth changes nothing; [connect] is called with the
    first three, no command but the fourth is ever sent, and once [connect]
    has returned the fourth is sent, the remote host being left as that
    command leaves it.  So a command is one argument, spaces and all. *)
Theorem only_first_four_arguments_used :
  forall Remote (env : Env Remote) prog host user password command extra r,
    let res := run (main env (prog :: host :: user :: password :: command
                                   :: extra)) r in
    res = run (main env [prog; host; user; password; command]) r
    /\ (exists rest,
           log_of res = opening host user password 15 ++ rest
           /\ forall c, In (EvExec c) rest -> c = command)
    /\ (transport_fault env host 15 r = None ->
        auth_fault env host user password r = None ->
        (exists rest,
            log_of res
            = opening host user password 15 ++ EvExec command :: rest)
        /\ w_remote (snd res) = fst (remote_exec env command r)).
Proof.
  intros Remote env prog host user password command extra r res.
  split; [reflexivity|]. split.
  - subst res.
    destruct (what_a_run_meets env host user password command r)
      as [(ch & out & err & H)|[(ch & out & err & H)|[(e & H)|[H|H]]]].
    + unfold log_of. rewrite (run_main_relays prog extra H). cbn [snd w_log].
      eexists. split; [reflexivity|].
      intros c Hc. cbn in Hc.
      destruct Hc as [Hc|[Hc|[Hc|[Hc|[Hc|[Hc|Hc]]]]]];
        try discriminate; try (now inversion Hc).
      destruct err; cbn in Hc; intuition discriminate.
    + unfold log_of. rewrite (run_main_refused prog extra H). cbn [snd w_log].
      eexists. split; [reflexivity|].
      intros c Hc. cbn in Hc.
      repeat (destruct Hc as [Hc|Hc]; try discriminate;
              try (now inversion Hc)); contradiction.
    + destruct (run_main_fails prog extra H) as (n & w & Hr & Hl & _).
      unfold log_of. rewrite Hr. cbn [snd]. rewrite Hl.
      eexists. split; [reflexivity|].
      intros c Hc. unfold attempted in Hc.
      destruct n as [|[|[|n]]]; cbn in Hc; rewrite ?firstn_nil in Hc;
        cbn in Hc;
        repeat (destruct Hc as [Hc|Hc]; try discriminate;
                try (now inversion Hc));
        try contradiction.
    + destruct (run_main_interrupted prog extra H) as (n & w & Hr & Hl & _).
      unfold log_of. rewrite Hr. cbn [snd]. rewrite Hl.
      eexists. split; [reflexivity|].
      intros c Hc. unfold attempted in Hc.
      destruct n as [|[|[|n]]]; cbn in Hc; rewrite ?firstn_nil in Hc;
        cbn in Hc;
        repeat (destruct Hc as [Hc|Hc]; try discriminate;
                try (now inversion Hc));
        try contradiction.
    + unfold log_of. rewrite (run_main_stalls prog extra H). cbn [snd w_log].
      eexists. split; [reflexivity|].
      intros c Hc. cbn in Hc.
      repeat (destruct Hc as [Hc|Hc]; try discriminate;
              try (now inversion Hc)); contradiction.
  - intros H1 H2. subst res.
    destruct (@run_main_connected Remote env prog host user password command
                                  extra r H1 H2) as (t & on & rest & Hr).
    unfold log_of. rewrite Hr. split; [|reflexivity].
    exists rest. reflexivity.
Qed.

Lemma only_first_four_arguments_used_witness :
  let res := run (main (router_env [])
                       [text "ssh-helper.py"; router_host; router_user;
                        router_password; dropbear_command sample_key;
                        text "&&"; text "reboot"]) blank_router in
  (exists rest,
      log_of res
      = opening router_host router_user router_password 15
        ++ EvExec (dropbear_command sample_key) :: rest)
  /\ w_remote (snd res) = mkRouter [] true true [] true (echo sample_key).
Proof.
  exact (proj2 (proj2 (only_first_four_arguments_used
                         (router_env []) (text "ssh-helper.py") router_host
                         router_user router_password
                         (dropbear_command sample_key)
                         [text "&&"; text "reboot"] blank_router))
               eq_refl eq_refl).
Defined.

(** ** Relay *)

Lemma sample_succeeds :
  succeeds (fixed_env both_streams_exit_7)
           (text "router") (text "admin") (text "secret") (text "ls -l") tt
           both_streams_exit_7 (text "hello") (text "warn").
Proof. repeat split; reflexivity. Qed.

Lemma sample_relays :
  relays (fixed_env both_streams_exit_7)
         (text "router") (text "admin") (text "secret") (text "ls -l") tt
         both_streams_exit_7 (text "hello") (text "warn").
Proof. split; [exact sample_succeeds|reflexivity]. Qed.

(** C1, as amended: when connect and execute succeed, the command ends its
    streams, both are UTF-8 and the standard output of the process can
    encode what the command wrote to its own, the program closes the
    session, writes the decoded standard output to its own standard output
    with nothing added, writes the decoded standard error to its own
    standard error unless it is empty, and exits with the low eight bits of
    the remote command's exit status, which is that status when it lies
    between 0 and 255. *)
Theorem relay_on_success :
  forall Remote (env : Env Remote) prog host user password command extra r
         ch out err,
    relays env host user password command r ch out err ->
    let res := run (main env (prog :: host :: user :: password :: command
                                   :: extra)) r in
    fst res = Exited (exit_status (ch_status ch))
    /\ ((0 <= ch_status ch < 256)%Z -> fst res = Exited (ch_status ch))
    /\ log_of res
       = opening host user password 15
         ++ [EvExec command; EvRead Stdout; EvRead Stderr;
             EvRecvExitStatus; EvClose]
         ++ EvWrite Stdout out
            :: match err with [] => [] | _ :: _ => [EvWrite Stderr err] end.
Proof.
  intros Remote env prog host user password command extra r ch out err H res.
  subst res. unfold log_of. rewrite (run_main_relays prog extra H).
  cbn [fst snd w_log]. split; [reflexivity|]. split; [|reflexivity].
  intro Hb. now rewrite (exit_status_byte Hb).
Qed.

Lemma relay_on_success_witness :
  let res := run (main (fixed_env both_streams_exit_7) sample_argv) tt in
  fst res = Exited (exit_status 7)
  /\ ((0 <= 7 < 256)%Z -> fst res = Exited 7)
  /\ log_of res
     = opening (text "router") (text "admin") (text "secret") 15
       ++ [EvExec (text "ls -l"); EvRead Stdout; EvRead Stderr;
           EvRecvExitStatus; EvClose]
       ++ [EvWrite Stdout (text "hello"); EvWrite Stderr (text "warn")].
Proof.
  exact (relay_on_success (text "ssh-helper.py") [] sample_relays).
Defined.

(** C1, as stated, fails: connect and execute succeed and the remote command
    exits with 0, but its output is one byte that is no UTF-8; nothing is
    written to standard output and the exit code is 255. *)
Lemma undecodable_output_not_relayed :
  connects_and_executes (fixed_env stray_byte)
                        (text "router") (text "admin") (text "secret")
                        (text "ls -l") tt stray_byte
  /\ ch_status stray_byte = 0%Z
  /\ fst (run (main (fixed_env stray_byte) sample_argv) tt) = Exited 255
  /\ log_of (run (main (fixed_env stray_byte) sample_argv) tt)
     = opening (text "router") (text "admin") (text "secret") 15
       ++ [EvExec (text "ls -l"); EvRead Stdout;
           EvWrite Stderr (text "Connection error: " ++ stray_byte_text
                           ++ newline)].
Proof. repeat split; reflexivity. Qed.

(** ** Exit codes *)

Lemma exit_status_is_a_byte :
  forall code : Z, (0 <= exit_status code < 256)%Z.
Proof. intro code. unfold exit_status. apply Z.mod_pos_bound. lia. Qed.

(** C2, as amended: the exit code is 1 when arguments are missing; the low
    eight bits of the remote exit status, which is that status when it lies
    between 0 and 255, when the run relays the output; and 255 whenever an
    instance of [Exception] is raised, in the connection, in the execution,
    in decoding a stream or in writing the decoded output, whatever its
    kind: before exiting with 255 the program writes to its standard error
    the line of that kind ([diagnostic]) and it has written nothing to its
    standard output.  An exit code is always between 0 and 255. *)
Theorem exit_code_by_outcome :
  forall Remote (env : Env Remote) (argv : list pystr) (r : Remote),
    (List.length (arguments argv) < 4 ->
     fst (run (main env argv) r) = Exited 1)
    /\ (forall code,
           fst (run (main env argv) r) = Exited code -> (0 <= code < 256)%Z)
    /\ forall prog host user password command extra,
        argv = prog :: host :: user :: password :: command :: extra ->
        (forall ch out err,
            relays env host user password command r ch out err ->
            fst (run (main env argv) r) = Exited (exit_status (ch_status ch))
            /\ ((0 <= ch_status ch < 256)%Z ->
                fst (run (main env argv) r) = Exited (ch_status ch)))
        /\ (forall e,
               fails env host user password command r e
               \/ (exists ch out err,
                      refused env host user password command r ch out err
                      /\ e = refusal env out) ->
               fst (run (main env argv) r) = Exited 255
               /\ (exists l, log_of (run (main env argv) r)
                             = l ++ [EvWrite Stderr (diagnostic e ++ newline)])
               /\ forall t, ~ In (EvWrite Stdout t)
                                 (log_of (run (main env argv) r))).
Proof.
  intros Remote env argv r. split; [|split].
  - intro H. apply arguments_length in H.
    now rewrite (run_main_short env argv r H).
  - intros code H.
    destruct (Nat.lt_ge_cases (List.length argv) 5) as [Hs|Hl].
    { rewrite (run_main_short env argv r Hs) in H. inversion H. lia. }
    destruct (enough_args argv Hl)
      as (prog & host & user & password & command & extra & ->).
    destruct (what_a_run_meets env host user password command r)
      as [(ch & out & err & Hm)|[(ch & out & err & Hm)|[(e & Hm)|[Hm|Hm]]]].
    + rewrite (run_main_relays prog extra Hm) in H. inversion H.
      apply exit_status_is_a_byte.
    + rewrite (run_main_refused prog extra Hm) in H. inversion H. lia.
    + destruct (run_main_fails prog extra Hm) as (n & w & Hr & _).
      rewrite Hr in H. inversion H. lia.
    + destruct (run_main_interrupted prog extra Hm) as (n & w & Hr & _).
      rewrite Hr in H. discriminate H.
    + rewrite (run_main_stalls prog extra Hm) in H. discriminate H.
  - intros prog host user password command extra ->. split.
    + intros ch out err H. rewrite (run_main_relays prog extra H).
      cbn [fst]. split; [reflexivity|].
      intro Hb. now rewrite (exit_status_byte Hb).
    + intros e [H|(ch & out & err & H & ->)].
      * destruct (run_main_fails prog extra H) as (n & w & Hr & Hl & _).
        unfold log_of. rewrite Hr. cbn [fst snd]. rewrite Hl.
        split; [reflexivity|]. split.
        -- exists (opening host user password 15 ++ attempted command n).
           now rewrite <- app_assoc.
        -- intro t. apply no_stdout_before_failure.
      * unfold log_of. rewrite (run_main_refused prog extra H).
        cbn [fst snd w_log]. split; [reflexivity|]. split.
        -- eexists. rewrite app_assoc. reflexivity.
        -- intro t. cbn. intuition discriminate.
Qed.

Lemma wrong_password_fails :
  fails wrong_password_env (text "router") (text "admin") (text "secret")
        (text "ls -l") tt
        (Exc AuthenticationException (text "Authentication failed.")).
Proof. apply auth_fails; reflexivity. Qed.

Lemma exit_code_by_outcome_witness :
  fst (run (main wrong_password_env sample_argv) tt) = Exited 255
  /\ (exists l, log_of (run (main wrong_password_env sample_argv) tt)
                = l ++ [EvWrite Stderr (text "Authentication failed" ++ newline)])
  /\ forall t, ~ In (EvWrite Stdout t)
                    (log_of (run (main wrong_password_env sample_argv) tt)).
Proof.
  exact (proj2 (proj2 (proj2 (exit_code_by_outcome wrong_password_env
                                                   sample_argv tt))
                      _ _ _ _ _ _ eq_refl)
               _ (or_introl wrong_password_fails)).
Defined.

(** C2, as stated, fails.  A command killed by a signal leaves no exit
    status and the library answers -1: the run relays what the command
    wrote, reports no error of any kind and exits with 255, which is not the
    status it forwards.  And a command that exits with 0 after printing a
    price in euros, run from a process whose standard output is ASCII, is
    executed and read without any error, the session is closed, and the
    exit code is 255 after a line that speaks of a connection error. *)
Lemma remote_status_not_forwarded :
  relays (fixed_env no_exit_status)
         (text "router") (text "admin") (text "secret") (text "ls -l") tt
         no_exit_status (text "partial") []
  /\ ch_status no_exit_status = (-1)%Z
  /\ fst (run (main (fixed_env no_exit_status) sample_argv) tt) = Exited 255
  /\ log_of (run (main (fixed_env no_exit_status) sample_argv) tt)
     = opening (text "router") (text "admin") (text "secret") 15
       ++ [EvExec (text "ls -l"); EvRead Stdout; EvRead Stderr;
           EvRecvExitStatus; EvClose; EvWrite Stdout (text "partial")]
  /\ succeeds (ascii_stdout_env prints_price)
              (text "router") (text "admin") (text "secret") (text "ls -l") tt
              prints_price price []
  /\ ch_status prints_price = 0%Z
  /\ fst (run (main (ascii_stdout_env prints_price) sample_argv) tt)
     = Exited 255
  /\ log_of (run (main (ascii_stdout_env prints_price) sample_argv) tt)
     = opening (text "router") (text "admin") (text "secret") 15
       ++ [EvExec (text "ls -l"); EvRead Stdout; EvRead Stderr;
           EvRecvExitStatus; EvClose;
           EvWrite Stderr (text "Connection error: " ++ no_euro_text
                           ++ newline)].
Proof. repeat split; reflexivity. Qed.

(** ** Order of the reads *)

Lemma precedes_prefix :
  forall (a b : event) (p q : list event),
    In a p -> ~ In b p -> precedes a b (p ++ q).
Proof.
  intros a b p q Ha Hb l1. revert p Ha Hb.
  induction l1 as [|y l1 IH]; intros p Ha Hb l2 E.
  - destruct p as [|x p]; [contradiction|].
    cbn in E. inversion E; subst. exfalso. apply Hb. now left.
  - destruct p as [|x p]; [contradiction|].
    cbn in E. inversion E; subst.
    destruct Ha as [Ha|Ha]; [now left|]. right.
    apply (IH p Ha (fun H => Hb (or_intror H)) l2). assumption.
Qed.

Lemma precedes_absent :
  forall (a b : event) (l : list event), ~ In b l -> precedes a b l.
Proof.
  intros a b l H l1 l2 E. exfalso. apply H. rewrite E.
  apply in_or_app. right. now left.
Qed.

(** C5: in a successful run, one in which connect and execute succeed and
    both streams of the command are UTF-8, the exit status is read, and
    wherever it is read both stream reads have gone before: between sending
    the command and reading its exit status the run reads the standard
    output and then the standard error, once each, and closes the session
    next.  Each read gave its stream whole: whatever the run then writes to
    its standard output is, encoded again, byte for byte the standard output
    of the command, and when that can be written the run writes it, and
    writes to its standard error the whole standard error of the command,
    or nothing when that is empty. *)
Theorem exit_status_read_after_both_streams :
  forall Remote (env : Env Remote) prog host user password command extra r
         ch out err,
    succeeds env host user password command r ch out err ->
    let log := log_of (run (main env (prog :: host :: user :: password
                                           :: command :: extra)) r) in
    In EvRecvExitStatus log
    /\ precedes (EvRead Stdout) EvRecvExitStatus log
    /\ precedes (EvRead Stderr) EvRecvExitStatus log
    /\ (exists tail,
           log = opening host user password 15
                 ++ [EvExec command; EvRead Stdout; EvRead Stderr;
                     EvRecvExitStatus; EvClose]
                 ++ tail
           /\ ~ In EvRecvExitStatus tail)
    /\ (forall t, In (EvWrite Stdout t) log -> utf8_encode t = ch_stdout ch)
    /\ (forallb (encodable env) out = true ->
        In (EvWrite Stdout out) log
        /\ (forall u, In (EvWrite Stderr u) log -> utf8_encode u = ch_stderr ch)
        /\ (ch_stderr ch <> [] -> In (EvWrite Stderr err) log)).
Proof.
  intros Remote env prog host user password command extra r ch out err H log.
  assert (Hout : utf8_encode out = ch_stdout ch)
    by (destruct H as (_ & Ho & _); now apply encode_decode in Ho).
  assert (Herr : utf8_encode err = ch_stderr ch)
    by (destruct H as (_ & _ & He); now apply encode_decode in He).
  assert (Hshape : exists tail,
             log = (opening host user password 15
                    ++ [EvExec command; EvRead Stdout; EvRead Stderr])
                   ++ EvRecvExitStatus :: EvClose :: tail
             /\ ~ In EvRecvExitStatus tail
             /\ (forall t, In (EvWrite Stdout t) tail -> t = out)
             /\ (forallb (encodable env) out = true -> tail = relay out err)).
  { subst log. unfold log_of.
    destruct (forallb (encodable env) out) eqn:He.
    - rewrite (run_main_relays prog extra (conj H He)). cbn [snd w_log].
      exists (relay out err). split; [reflexivity|].
      split; [apply relay_has_no_exit_status|].
      split; [apply relay_writes_stdout|reflexivity].
    - rewrite (run_main_refused prog extra (conj H He)). cbn [snd w_log].
      eexists. split; [reflexivity|].
      split; [cbn; intuition discriminate|].
      split; [|discriminate].
      intros t Ht. cbn in Ht. exfalso. intuition discriminate. }
  destruct Hshape as (tail & Hlog & Hno & Hw & Hr).
  assert (Hin : forall s t, In (EvWrite s t) log -> In (EvWrite s t) tail).
  { intros s t Ht. rewrite Hlog in Ht.
    apply in_app_or in Ht. destruct Ht as [Ht|Ht].
    - exfalso. cbn in Ht. intuition discriminate.
    - cbn in Ht. destruct Ht as [Ht|[Ht|Ht]]; try discriminate. exact Ht. }
  split; [|split; [|split; [|split; [|split]]]].
  - rewrite Hlog. apply in_or_app. right. now left.
  - rewrite Hlog. apply precedes_prefix; cbn; intuition discriminate.
  - rewrite Hlog. apply precedes_prefix; cbn; intuition discriminate.
  - exists tail. split; [|exact Hno]. rewrite Hlog. now rewrite <- app_assoc.
  - intros t Ht. apply Hin in Ht. apply Hw in Ht. now subst t.
  - intro He. specialize (Hr He).
    assert (Htail : forall e, In e tail -> In e log).
    { intros e Hi. rewrite Hlog. apply in_or_app. right. right. now right. }
    split; [|split].
    + apply Htail. rewrite Hr. now left.
    + intros u Hu. apply Hin in Hu. rewrite Hr in Hu.
      apply relay_writes_stderr in Hu. destruct Hu as [-> _]. exact Herr.
    + intro Hne. apply Htail. rewrite Hr.
      destruct err as [|c err']; [now elim Hne|]. cbn. tauto.
Qed.

Lemma exit_status_read_after_both_streams_witness :
  let log := log_of (run (main (fixed_env both_streams_exit_7) sample_argv) tt) in
  In EvRecvExitStatus log
  /\ precedes (EvRead Stdout) EvRecvExitStatus log
  /\ precedes (EvRead Stderr) EvRecvExitStatus log
  /\ (exists tail,
         log = opening (text "router") (text "admin") (text "secret") 15
               ++ [EvExec (text "ls -l"); EvRead Stdout; EvRead Stderr;
                   EvRecvExitStatus; EvClose]
               ++ tail
         /\ ~ In EvRecvExitStatus tail)
  /\ (forall t, In (EvWrite Stdout t) log
                -> utf8_encode t = utf8_encode (text "hello"))
  /\ (forallb (encodable (fixed_env both_streams_exit_7)) (text "hello") = true ->
      In (EvWrite Stdout (text "hello")) log
      /\ (forall u, In (EvWrite Stderr u) log
                    -> utf8_encode u = utf8_encode (text "warn"))
      /\ (utf8_encode (text "warn") <> [] -> In (EvWrite Stderr (text "warn")) log)).
Proof.
  exact (exit_status_read_after_both_streams (text "ssh-helper.py") []
           sample_succeeds).
Defined.

(** ** What escapes the handlers *)

(** C9, as amended: no instance of [Exception] ever ends the run in a
    traceback.  With enough arguments the run relays the output and exits
    with the remote status (its low eight bits), or it has caught the first
    instance of [Exception], be it raised by the library, by [decode] or by
    the [print] of the decoded output, named it on its standard error and
    exits with 255; what is left is a [KeyboardInterrupt], which no clause
    catches and which ends the run in its traceback, and a command that
    never ends its streams, which leaves the process waiting.  A decoding
    error is caught like any other: a command whose output is no UTF-8 is
    reported through the last clause, as a connection error, and nothing of
    its output is written. *)
Theorem never_an_unhandled_exception :
  forall Remote (env : Env Remote) (argv : list pystr) (r : Remote),
    (forall t, fst (run (main env argv) r) = Traceback t ->
               t = KeyboardInterrupt)
    /\ forall prog host user password command extra,
        argv = prog :: host :: user :: password :: command :: extra ->
        ((exists ch out err,
             relays env host user password command r ch out err
             /\ fst (run (main env argv) r)
                = Exited (exit_status (ch_status ch)))
         \/ (exists e,
                (fails env host user password command r e
                 \/ exists ch out err,
                    refused env host user password command r ch out err
                    /\ e = refusal env out)
                /\ fst (run (main env argv) r) = Exited 255
                /\ exists l, log_of (run (main env argv) r)
                             = l ++ [EvWrite Stderr (diagnostic e ++ newline)])
         \/ (interrupted env host user password command r
             /\ fst (run (main env argv) r) = Traceback KeyboardInterrupt)
         \/ (stalls env host user password command r
             /\ fst (run (main env argv) r) = Hangs))
        /\ forall ch,
            connects_and_executes env host user password command r ch ->
            utf8_decode (ch_stdout ch) = None ->
            fst (run (main env argv) r) = Exited 255
            /\ log_of (run (main env argv) r)
               = opening host user password 15
                 ++ [EvExec command; EvRead Stdout;
                     EvWrite Stderr
                       ((text "Connection error: "
                         ++ decode_error_text env (ch_stdout ch)) ++ newline)].
Proof.
  intros Remote env argv r.
  assert (Hcases : forall prog host user password command extra,
             argv = prog :: host :: user :: password :: command :: extra ->
             (exists ch out err,
                 relays env host user password command r ch out err
                 /\ fst (run (main env argv) r)
                    = Exited (exit_status (ch_status ch)))
             \/ (exists e,
                    (fails env host user password command r e
                     \/ exists ch out err,
                        refused env host user password command r ch out err
                        /\ e = refusal env out)
                    /\ fst (run (main env argv) r) = Exited 255
                    /\ exists l, log_of (run (main env argv) r)
                                 = l ++ [EvWrite Stderr
                                           (diagnostic e ++ newline)])
             \/ (interrupted env host user password command r
                 /\ fst (run (main env argv) r) = Traceback KeyboardInterrupt)
             \/ (stalls env host user password command r
                 /\ fst (run (main env argv) r) = Hangs)).
  { intros prog host user password command extra ->.
    destruct (what_a_run_meets env host user password command r)
      as [(ch & out & err & H)|[(ch & out & err & H)|[(e & H)|[H|H]]]].
    - left. exists ch, out, err. split; [assumption|].
      now rewrite (run_main_relays prog extra H).
    - right. left. exists (refusal env out). split.
      { right. exists ch, out, err. now split. }
      unfold log_of. rewrite (run_main_refused prog extra H).
      cbn [fst snd w_log]. split; [reflexivity|].
      eexists. rewrite app_assoc. reflexivity.
    - right. left. exists e. split; [now left|].
      destruct (run_main_fails prog extra H) as (n & w & Hr & Hl & _).
      unfold log_of. rewrite Hr. cbn [fst snd]. rewrite Hl.
      split; [reflexivity|].
      exists (opening host user password 15 ++ attempted command n).
      now rewrite <- app_assoc.
    - right. right. left. split; [assumption|].
      destruct (run_main_interrupted prog extra H) as (n & w & Hr & _).
      now rewrite Hr.
    - right. right. right. split; [assumption|].
      now rewrite (run_main_stalls prog extra H). }
  split; [|intros prog host user password command extra E; split].
  - intros t Ht.
    destruct (Nat.lt_ge_cases (List.length argv) 5) as [Hs|Hl].
    { rewrite (run_main_short env argv r Hs) in Ht. discriminate Ht. }
    destruct (enough_args argv Hl)
      as (prog & host & user & password & command & extra & E).
    destruct (Hcases _ _ _ _ _ _ E)
      as [(ch & _ & _ & _ & H)|[(e & _ & H & _)|[(_ & H)|(_ & H)]]];
      rewrite H in Ht; congruence.
  - exact (Hcases _ _ _ _ _ _ E).
  - subst argv. intros ch Hc Hd. unfold log_of, run.
    rewrite main_enough_args, try_except_main,
      (@main_try_stdout_undecodable Remote env host user password command r
                                    ch Hc Hd).
    split; reflexivity.
Qed.

Lemma stray_byte_executes :
  connects_and_executes (fixed_env stray_byte)
                        (text "router") (text "admin") (text "secret")
                        (text "ls -l") tt stray_byte.
Proof. repeat split; reflexivity. Qed.

Lemma never_an_unhandled_exception_witness :
  fst (run (main (fixed_env stray_byte) sample_argv) tt) = Exited 255
  /\ log_of (run (main (fixed_env stray_byte) sample_argv) tt)
     = opening (text "router") (text "admin") (text "secret") 15
       ++ [EvExec (text "ls -l"); EvRead Stdout;
           EvWrite Stderr
             ((text "Connection error: " ++ stray_byte_text)
              ++ newline)].
Proof.
  exact (proj2 (proj2 (never_an_unhandled_exception (fixed_env stray_byte)
                                                    sample_argv tt)
                      _ _ _ _ _ _ eq_refl)
               stray_byte stray_byte_executes eq_refl).
Defined.

(** C9, as stated, fails: the user interrupts the connection attempt; the
    [KeyboardInterrupt] is an instance of no class the clauses name, nothing
    is reported on the standard error by the program, and the run ends in
    the traceback of the interrupt instead of an exit with 255. *)
Lemma interrupt_is_not_caught :
  transport_fault impatient_env (text "router") 15 tt = Some KeyboardInterrupt
  /\ run (main impatient_env sample_argv) tt
     = (Traceback KeyboardInterrupt,
        mkWorld tt (mkClient AutoAddPolicy [] false)
                (opening (text "router") (text "admin") (text "secret") 15)).
Proof. split; reflexivity. Qed.

(** ** The key-append script, case by case *)

Section AddKey.

Variable Remote : Type.
Variable env : Env Remote.
Variable r : Remote.

Lemma add_key_when_present :
  forall keyfile r1 current,
    looks_up env r keyfile r1 current ->
    contains (strip current) (strip keyfile) = true ->
    run (add_key_nvram env) r
    = (Exited 0,
       mkWorld r1 (trusting router_host (server_key env router_host r) false)
               (lookup_calls
                ++ [EvWrite Stdout (already_present ++ newline); EvClose])).
Proof.
  intros keyfile r1 current (H1 & H2 & H3 & ch & H4 & H5) H6.
  unfold keyfile_path, router_host, router_user, router_password, get_keys
    in *.
  unfold_script. cbn. rewrite H1. cbn. rewrite H2. cbn. rewrite H3. cbn.
  rewrite H4. cbn. rewrite H5. cbn. rewrite H6. literal_prints. reflexivity.
Qed.

Lemma add_key_when_absent :
  forall keyfile r1 current r2 ch1 r3 ch2,
    looks_up env r keyfile r1 current ->
    contains (strip current) (strip keyfile) = false ->
    remote_exec env (jffs_command (strip keyfile)) r1 = (r2, inr ch1) ->
    remote_exec env (dropbear_command (strip keyfile)) r2 = (r3, inr ch2) ->
    run (add_key_nvram env) r
    = (Exited 0,
       mkWorld r3 (trusting router_host (server_key env router_host r) false)
               (lookup_calls ++ append_calls (strip keyfile)
                ++ [EvWrite Stdout (key_added ++ newline); EvClose])).
Proof.
  intros keyfile r1 current r2 ch1 r3 ch2 (H1 & H2 & H3 & ch & H4 & H5)
         H6 H7 H8.
  unfold keyfile_path, router_host, router_user, router_password, get_keys
    in *.
  unfold_script. cbn. rewrite H1. cbn. rewrite H2. cbn. rewrite H3. cbn.
  rewrite H4. cbn. rewrite H5. cbn. rewrite H6. cbn.
  unfold jffs_command, dropbear_command in *. cbn in *.
  rewrite H7. cbn. rewrite H8. cbn. literal_prints. reflexivity.
Qed.

End AddKey.

(** Follow a script through every answer the environment can give. *)
Ltac explore_step :=
  match goal with
  | |- context [forallb (encodable ?e) ?t] =>
    rewrite (@stdout_takes_ascii _ e t eq_refl)
  | |- context [read_file ?e ?p] => destruct (read_file e p) eqn:?
  | |- context [transport_fault ?e ?h ?t ?r] =>
    destruct (transport_fault e h t r) eqn:?
  | |- context [auth_fault ?e ?h ?u ?p ?r] =>
    destruct (auth_fault e h u p r) eqn:?
  | |- context [remote_exec ?e ?c ?r] =>
    destruct (remote_exec e c r) as [? [[?| |]|?]] eqn:?
  | |- context [utf8_decode ?b] => destruct (utf8_decode b) eqn:?
  | |- context [contains ?a ?b] => destruct (contains a b) eqn:?
  end; cbn.

Ltac explore := unfold_script; cbn; repeat explore_step.


Lemma add_key_closes_at_its_end :
  forall Remote (env : Env Remote) (r : Remote),
    In EvClose (log_of (run (add_key_nvram env) r))
    <-> fst (run (add_key_nvram env) r) = Exited 0.
Proof.
  intros Remote env r. explore;
    (split; intro H; [try reflexivity; cbn in H; intuition discriminate
                     |try discriminate H; cbn; tauto]).
Qed.

(** ** Closing the session *)

(** C4, as amended: a script closes its session only when nothing before the
    call raised.  The command runner calls [close] exactly in the runs in
    which connect and execute succeed and both streams are decoded, after
    reading the exit status and before printing: such a run ends without a
    session, also when printing then fails and it exits with 255.  Whenever
    it fails before, it exits with 255 without closing, and the session, if
    the command was sent over one, is still open.  The key-append script
    calls [close] exactly when it runs to its end. *)
Theorem session_closed_only_on_success :
  forall Remote (env : Env Remote) (r : Remote),
    (forall prog host user password command extra,
        let res := run (main env (prog :: host :: user :: password :: command
                                       :: extra)) r in
        (In EvClose (log_of res)
         <-> exists ch out err,
            succeeds env host user password command r ch out err)
        /\ (forall ch out err,
               succeeds env host user password command r ch out err ->
               active (w_client (snd res)) = false)
        /\ (forall e,
               fails env host user password command r e ->
               fst res = Exited 255
               /\ ~ In EvClose (log_of res)
               /\ (In (EvExec command) (log_of res) ->
                   active (w_client (snd res)) = true))
        /\ forall ch out err,
            refused env host user password command r ch out err ->
            fst res = Exited 255 /\ In EvClose (log_of res))
    /\ (In EvClose (log_of (run (add_key_nvram env) r))
        <-> fst (run (add_key_nvram env) r) = Exited 0).
Proof.
  intros Remote env r. split; [|apply add_key_closes_at_its_end].
  intros prog host user password command extra res.
  assert (Hs : forall ch out err,
             succeeds env host user password command r ch out err ->
             In EvClose (log_of res) /\ active (w_client (snd res)) = false).
  { intros ch out err H. subst res. unfold log_of.
    destruct (forallb (encodable env) out) eqn:He.
    - rewrite (run_main_relays prog extra (conj H He)). cbn. tauto.
    - rewrite (run_main_refused prog extra (conj H He)). cbn. tauto. }
  split; [split|split; [|split]].
  - intro Hin.
    destruct (what_a_run_meets env host user password command r)
      as [(ch & out & err & H)|[(ch & out & err & H)|[(e & H)|[H|H]]]].
    + exists ch, out, err. apply H.
    + exists ch, out, err. apply H.
    + exfalso. subst res.
      destruct (run_main_fails prog extra H) as (n & w & Hr & Hl & _).
      unfold log_of in Hin. rewrite Hr in Hin. cbn [snd] in Hin.
      rewrite Hl in Hin. now apply no_close_before_failure in Hin.
    + exfalso. subst res.
      destruct (run_main_interrupted prog extra H) as (n & w & Hr & Hl & _).
      unfold log_of in Hin. rewrite Hr in Hin. cbn [snd] in Hin.
      rewrite Hl in Hin. now apply no_close_when_interrupted in Hin.
    + exfalso. subst res. unfold log_of in Hin.
      rewrite (run_main_stalls prog extra H) in Hin. cbn in Hin.
      intuition discriminate.
  - intros (ch & out & err & H). apply (Hs ch out err H).
  - intros ch out err H. apply (Hs ch out err H).
  - intros e H. subst res.
    destruct (run_main_fails prog extra H) as (n & w & Hr & Hl & _ & Ha).
    unfold log_of. rewrite Hr. cbn [fst snd]. rewrite Hl, Ha.
    split; [reflexivity|]. split; [apply no_close_before_failure|].
    destruct n as [|n]; [|reflexivity].
    intro Hin. exfalso. cbn in Hin. intuition discriminate.
  - intros ch out err H. split; [|apply (Hs ch out err (proj1 H))].
    subst res. now rewrite (run_main_refused prog extra H).
Qed.

Lemma refused_channel_fails :
  fails no_channel_env (text "router") (text "admin") (text "secret")
        (text "ls -l") tt
        (Exc ChannelException refusal_text).
Proof. apply exec_fails; reflexivity. Qed.

Lemma session_closed_only_on_success_witness :
  let res := run (main no_channel_env sample_argv) tt in
  fst res = Exited 255
  /\ ~ In EvClose (log_of res)
  /\ (In (EvExec (text "ls -l")) (log_of res) ->
      active (w_client (snd res)) = true).
Proof.
  exact (proj1 (proj2 (proj2 (proj1 (session_closed_only_on_success
                                       no_channel_env tt)
                                    (text "ssh-helper.py") _ _ _ _ [])))
               _ refused_channel_fails).
Defined.

(** C4, as stated, fails: the server accepts the session and refuses the
    channel; the program reports the error and exits with 255, and the
    session it opened has not been closed. *)
Lemma session_left_open_after_refused_channel :
  fst (run (main no_channel_env sample_argv) tt) = Exited 255
  /\ log_of (run (main no_channel_env sample_argv) tt)
     = opening (text "router") (text "admin") (text "secret") 15
       ++ [EvExec (text "ls -l");
           EvWrite Stderr (text "SSH error: " ++ refusal_text
                           ++ newline)]
  /\ active (w_client (snd (run (main no_channel_env sample_argv) tt))) = true.
Proof. repeat split; reflexivity. Qed.

(** ** Unchecked appends *)



Lemma contains_app_r :
  forall a b n, contains b n = true -> contains (a ++ b) n = true.
Proof.
  induction a as [|c a IH]; intros b n H; [assumption|].
  cbn [contains app]. apply orb_true_iff. right. now apply IH.
Qed.





(** ** Host keys *)

Lemma auto_add_accepts_any_key :
  forall host key,
    check_host_key (mkClient AutoAddPolicy [] false) host key
    = inr (trusting host key false).
Proof. reflexivity. Qed.

(** The client's default would have turned the same server away. *)
Lemma default_policy_rejects_unknown_host :
  forall host key,
    check_host_key fresh_client host key
    = inl (Exc SSHException (text "Server not found in known_hosts")).
Proof. reflexivity. Qed.

(** C7: both scripts set the accept-any policy on a client that has no host
    key on record before they connect, so nothing is compared with the key
    the server presents: whenever the network and the authentication raise
    nothing, the scripts go on to run their first command, whatever that key
    is, and the client has taken the key down as the host's. *)
Theorem any_host_key_accepted :
  forall Remote (env : Env Remote) (r : Remote),
    (forall prog host user password command extra,
        transport_fault env host 15 r = None ->
        auth_fault env host user password r = None ->
        let res := run (main env (prog :: host :: user :: password :: command
                                       :: extra)) r in
        (exists rest,
            log_of res = opening host user password 15 ++ EvExec command :: rest)
        /\ policy (w_client (snd res)) = AutoAddPolicy
        /\ host_keys (w_client (snd res)) = [(host, server_key env host r)])
    /\ forall keyfile,
        read_file env keyfile_path = inr keyfile ->
        transport_fault env router_host 10 r = None ->
        auth_fault env router_host router_user router_password r = None ->
        let res := run (add_key_nvram env) r in
        (exists rest,
            log_of res
            = EvOpenFile keyfile_path
              :: opening router_host router_user router_password 10
              ++ EvExec get_keys :: rest)
        /\ policy (w_client (snd res)) = AutoAddPolicy
        /\ host_keys (w_client (snd res))
           = [(router_host, server_key env router_host r)].
Proof.
  intros Remote env r. split.
  - intros prog host user password command extra H1 H2 res. subst res.
    destruct (@run_main_connected Remote env prog host user password command
                                  extra r H1 H2) as (t & on & rest & Hr).
    unfold log_of. rewrite Hr.
    split; [exists rest; reflexivity|split; reflexivity].
  - intros keyfile H1 H2 H3 res. subst res.
    unfold keyfile_path, router_host, router_user, router_password, get_keys
      in *.
    unfold_script. cbn. rewrite H1. cbn. rewrite H2. cbn. rewrite H3. cbn.
    repeat explore_step; repeat split; eexists; reflexivity.
Qed.

Lemma any_host_key_accepted_witness :
  (exists rest,
      log_of (run (main (fixed_env both_streams_exit_7) sample_argv) tt)
      = opening (text "router") (text "admin") (text "secret") 15
        ++ EvExec (text "ls -l") :: rest)
  /\ policy (w_client (snd (run (main (fixed_env both_streams_exit_7)
                                      sample_argv) tt))) = AutoAddPolicy
  /\ host_keys (w_client (snd (run (main (fixed_env both_streams_exit_7)
                                         sample_argv) tt)))
     = [(text "router", [])].
Proof.
  exact (proj1 (any_host_key_accepted (fixed_env both_streams_exit_7) tt)
               (text "ssh-helper.py") (text "router") (text "admin")
               (text "secret") (text "ls -l") [] eq_refl eq_refl).
Defined.

(** ** The guard of the key-append script *)

Lemma router_answers_get_keys :
  forall r,
    router_exec get_keys r
    = (r, inr (mkChannel (nvram_sshd_authkeys r ++ [x0a]) [] 0)).
Proof.
  intro r. unfold router_exec, get_keys.
  destruct (list_eq_dec N.eq_dec _ _); [reflexivity|congruence].
Qed.

Lemma router_always_answers :
  forall cmd r, exists ch, snd (router_exec cmd r) = inr ch.
Proof.
  intros cmd [nv jw jd jf dw df].
  unfold router_exec, append_dropbear, append_jffs, mkdir_jffs. cbn.
  destruct (list_eq_dec N.eq_dec _ _); [eexists; reflexivity|].
  destruct (parse_dropbear cmd).
  { destruct dw; eexists; reflexivity. }
  destruct (parse_jffs cmd) as [[k1 k2]|]; [|eexists; reflexivity].
  destruct jw, jd; cbn; eexists; reflexivity.
Qed.

(** No command the router understands writes the nvram variable. *)
Lemma router_keeps_nvram :
  forall cmd r,
    nvram_sshd_authkeys (fst (router_exec cmd r)) = nvram_sshd_authkeys r.
Proof.
  intros cmd [nv jw jd jf dw df].
  unfold router_exec, append_dropbear, append_jffs, mkdir_jffs. cbn.
  destruct (list_eq_dec N.eq_dec _ _); [reflexivity|].
  destruct (parse_dropbear cmd).
  { destruct dw; reflexivity. }
  destruct (parse_jffs cmd) as [[k1 k2]|]; [|reflexivity].
  destruct jw, jd; reflexivity.
Qed.

Lemma router_looked_up :
  forall keyfile r current,
    utf8_decode (nvram_sshd_authkeys r ++ [x0a]) = Some current ->
    looks_up (router_env keyfile) r keyfile r current.
Proof.
  intros keyfile r current H. repeat split.
  eexists. split; [apply router_answers_get_keys|exact H].
Qed.

(** When the key is in what the first command prints, the script changes
    nothing on the remote host and says so. *)
Lemma key_present_nothing_appended :
  forall Remote (env : Env Remote) r keyfile r1 current,
    looks_up env r keyfile r1 current ->
    contains (strip current) (strip keyfile) = true ->
    fst (run (add_key_nvram env) r) = Exited 0
    /\ w_remote (snd (run (add_key_nvram env) r)) = r1
    /\ log_of (run (add_key_nvram env) r)
       = lookup_calls ++ [EvWrite Stdout (already_present ++ newline); EvClose].
Proof.
  intros Remote env r keyfile r1 current H1 H2.
  unfold log_of. rewrite (add_key_when_present H1 H2). repeat split.
Qed.

(** On the router the guard can never see what the append wrote: an
    invocation that appends leaves the nvram variable as it found it, and the
    next invocation appends again. *)
Lemma router_appends_on_every_invocation :
  forall keyfile r current,
    utf8_decode (nvram_sshd_authkeys r ++ [x0a]) = Some current ->
    contains (strip current) (strip keyfile) = false ->
    exists r',
      w_remote (snd (run (add_key_nvram (router_env keyfile)) r)) = r'
      /\ nvram_sshd_authkeys r' = nvram_sshd_authkeys r
      /\ log_of (run (add_key_nvram (router_env keyfile)) r)
         = lookup_calls ++ append_calls (strip keyfile)
           ++ [EvWrite Stdout (key_added ++ newline); EvClose]
      /\ log_of (run (add_key_nvram (router_env keyfile)) r')
         = lookup_calls ++ append_calls (strip keyfile)
           ++ [EvWrite Stdout (key_added ++ newline); EvClose].
Proof.
  assert (Hrun : forall keyfile r current,
             utf8_decode (nvram_sshd_authkeys r ++ [x0a]) = Some current ->
             contains (strip current) (strip keyfile) = false ->
             exists r',
               nvram_sshd_authkeys r' = nvram_sshd_authkeys r
               /\ run (add_key_nvram (router_env keyfile)) r
                  = (Exited 0,
                     mkWorld r' (trusting router_host [] false)
                             (lookup_calls ++ append_calls (strip keyfile)
                              ++ [EvWrite Stdout (key_added ++ newline);
                                  EvClose]))).
  { intros keyfile r current Hd Hc.
    destruct (router_exec (jffs_command (strip keyfile)) r) as [r2 res2] eqn:E2.
    destruct (router_always_answers (jffs_command (strip keyfile)) r)
      as [ch1 A1]. rewrite E2 in A1. cbn in A1. subst res2.
    destruct (router_exec (dropbear_command (strip keyfile)) r2)
      as [r3 res3] eqn:E3.
    destruct (router_always_answers (dropbear_command (strip keyfile)) r2)
      as [ch2 A2]. rewrite E3 in A2. cbn in A2. subst res3.
    exists r3. split.
    - pose proof (router_keeps_nvram (dropbear_command (strip keyfile)) r2) as K3.
      pose proof (router_keeps_nvram (jffs_command (strip keyfile)) r) as K2.
      rewrite E3 in K3. rewrite E2 in K2. cbn in K2, K3. congruence.
    - exact (@add_key_when_absent Router (router_env keyfile) r keyfile r
               current r2 ch1 r3 ch2 (router_looked_up keyfile r Hd) Hc E2 E3). }
  intros keyfile r current Hd Hc.
  destruct (Hrun keyfile r current Hd Hc) as (r' & Hn & H1).
  assert (Hd' : utf8_decode (nvram_sshd_authkeys r' ++ [x0a]) = Some current)
    by now rewrite Hn.
  destruct (Hrun keyfile r' current Hd' Hc) as (r'' & _ & H2).
  exists r'. unfold log_of. rewrite H1, H2. repeat split. assumption.
Qed.


(** C3 fails on the code: the first invocation appends the key (twice to the
    first file, its command being [(a || b) && c] with [a] succeeding); the
    second invocation reads the same nvram variable, finds no key in it, and
    appends again instead of reporting the key as present. *)
Lemma second_invocation_appends_again :
  let env := router_env (sample_key ++ newline) in
  let once := snd (run (add_key_nvram env) blank_router) in
  let twice := snd (run (add_key_nvram env) (w_remote once)) in
  w_remote once
  = mkRouter [] true true (echo sample_key ++ echo sample_key)
             true (echo sample_key)
  /\ w_remote twice
     = mkRouter [] true true
                (echo sample_key ++ echo sample_key
                 ++ echo sample_key ++ echo sample_key)
                true (echo sample_key ++ echo sample_key)
  /\ w_remote twice <> w_remote once
  /\ w_log twice
     = lookup_calls ++ append_calls sample_key
       ++ [EvWrite Stdout (key_added ++ newline); EvClose].
Proof.
  cbv zeta. split; [reflexivity|]. split; [reflexivity|].
  split; [|reflexivity]. vm_compute. discriminate.
Qed.

(** ** Further runs of the command runner *)

(** An unreachable host: nothing but the attempt and the report. *)
Example unreachable_host_reported :
  run (main unreachable_env sample_argv) tt
  = (Exited 255,
     mkWorld tt (mkClient AutoAddPolicy [] false)
             (opening (text "router") (text "admin") (text "secret") 15
              ++ [EvWrite Stderr (text "Connection error: timed out"
                                  ++ newline)])).
Proof. reflexivity. Qed.

(** A command passed as two arguments: only its first word is run. *)
Example split_command_loses_its_tail :
  log_of (run (main (fixed_env both_streams_exit_7)
                    [text "ssh-helper.py"; text "router"; text "admin";
                     text "secret"; text "ls"; text "-l"]) tt)
  = opening (text "router") (text "admin") (text "secret") 15
    ++ [EvExec (text "ls"); EvRead Stdout; EvRead Stderr; EvRecvExitStatus;
        EvClose; EvWrite Stdout (text "hello"); EvWrite Stderr (text "warn")].
Proof. reflexivity. Qed.

(** A command that prints nothing on its standard error: the process writes
    nothing there either. *)
Example empty_stderr_not_written :
  log_of (run (main (fixed_env (mkChannel (utf8_encode (text "ok")) [] 0))
                    sample_argv) tt)
  = opening (text "router") (text "admin") (text "secret") 15
    ++ [EvExec (text "ls -l"); EvRead Stdout; EvRead Stderr; EvRecvExitStatus;
        EvClose; EvWrite Stdout (text "ok")].
Proof. reflexivity. Qed.

(** A command that floods its standard error: the process sends it, starts
    reading its standard output and waits for ever. *)
Example flooded_run_hangs :
  run (main flooding_env sample_argv) tt
  = (Hangs,
     mkWorld tt (trusting (text "router") [] true)
             (opening (text "router") (text "admin") (text "secret") 15
              ++ [EvExec (text "ls -l"); EvRead Stdout])).
Proof. reflexivity. Qed.

(** A price in euros and a standard output that is ASCII: the session is
    closed, nothing is written to the standard output, and the error of
    [print] is reported as a connection error. *)
Example euro_refused_by_ascii_stdout :
  refused (ascii_stdout_env prints_price)
          (text "router") (text "admin") (text "secret") (text "ls -l") tt
          prints_price price []
  /\ run (main (ascii_stdout_env prints_price) sample_argv) tt
     = (Exited 255,
        mkWorld tt (trusting (text "router") [] false)
                (opening (text "router") (text "admin") (text "secret") 15
                 ++ [EvExec (text "ls -l"); EvRead Stdout; EvRead Stderr;
                     EvRecvExitStatus; EvClose;
                     EvWrite Stderr (text "Connection error: " ++ no_euro_text
                                     ++ newline)])).
Proof. repeat split; reflexivity. Qed.

(** The same price and a standard output that is UTF-8: relayed. *)
Example euro_relayed_by_utf8_stdout :
  relays (fixed_env prints_price)
         (text "router") (text "admin") (text "secret") (text "ls -l") tt
         prints_price price []
  /\ log_of (run (main (fixed_env prints_price) sample_argv) tt)
     = opening (text "router") (text "admin") (text "secret") 15
       ++ [EvExec (text "ls -l"); EvRead Stdout; EvRead Stderr;
           EvRecvExitStatus; EvClose; EvWrite Stdout price].
Proof. repeat split; reflexivity. Qed.

(** An exit status of 256 reaches the caller as 0. *)
Example status_256_exits_0 :
  fst (run (main (fixed_env (mkChannel [] [] 256)) sample_argv) tt) = Exited 0.
Proof. reflexivity. Qed.

(** The key already in the nvram variable: nothing is appended. *)
Example key_in_nvram_left_alone :
  let r := mkRouter (echo sample_key) true true [] true [] in
  run (add_key_nvram (router_env (sample_key ++ newline))) r
  = (Exited 0,
     mkWorld r (trusting router_host [] false)
             (lookup_calls
              ++ [EvWrite Stdout (already_present ++ newline); EvClose])).
Proof. reflexivity. Qed.

(** * Further properties *)

(** ** Reading the exit code of the command runner *)

(** X1: an exit code other than 1 and 255 comes from the remote command: the
    run had enough arguments, connected, executed, decoded both streams,
    closed the session and relayed them before exiting, and its exit code is
    the low eight bits of the remote exit status, which is that status when
    it lies between 0 and 255. *)
Theorem exit_code_tells_success :
  forall Remote (env : Env Remote) (argv : list pystr) (r : Remote) (code : Z),
    fst (run (main env argv) r) = Exited code ->
    code <> 1%Z ->
    code <> 255%Z ->
    exists prog host user password command extra ch out err,
      argv = prog :: host :: user :: password :: command :: extra
      /\ relays env host user password command r ch out err
      /\ exit_status (ch_status ch) = code
      /\ ((0 <= ch_status ch < 256)%Z -> ch_status ch = code)
      /\ log_of (run (main env argv) r)
         = opening host user password 15
           ++ [EvExec command; EvRead Stdout; EvRead Stderr;
               EvRecvExitStatus; EvClose]
           ++ relay out err.
Proof.
  intros Remote env argv r code H N1 N255.
  destruct (Nat.lt_ge_cases (List.length argv) 5) as [Hs|Hl].
  { rewrite (run_main_short env argv r Hs) in H. cbn in H. congruence. }
  destruct (enough_args argv Hl)
    as (prog & host & user & password & command & extra & ->).
  destruct (what_a_run_meets env host user password command r)
    as [(ch & out & err & Hm)|[(ch & out & err & Hm)|[(e & Hm)|[Hm|Hm]]]].
  - exists prog, host, user, password, command, extra, ch, out, err.
    unfold log_of. rewrite (run_main_relays prog extra Hm) in *.
    cbn [fst snd w_log] in *. split; [reflexivity|]. split; [exact Hm|].
    assert (E : exit_status (ch_status ch) = code) by congruence.
    split; [exact E|]. split; [|reflexivity].
    intro Hb. now rewrite (exit_status_byte Hb) in E.
  - rewrite (run_main_refused prog extra Hm) in H. cbn in H. congruence.
  - destruct (run_main_fails prog extra Hm) as (n & w & Hr & _).
    rewrite Hr in H. cbn in H. congruence.
  - destruct (run_main_interrupted prog extra Hm) as (n & w & Hr & _).
    rewrite Hr in H. discriminate H.
  - rewrite (run_main_stalls prog extra Hm) in H. discriminate H.
Qed.

Lemma exit_code_tells_success_witness :
  exists prog host user password command extra ch out err,
    sample_argv = prog :: host :: user :: password :: command :: extra
    /\ relays (fixed_env both_streams_exit_7) host user password command tt
              ch out err
    /\ exit_status (ch_status ch) = 7%Z
    /\ ((0 <= ch_status ch < 256)%Z -> ch_status ch = 7%Z)
    /\ log_of (run (main (fixed_env both_streams_exit_7) sample_argv) tt)
       = opening host user password 15
         ++ [EvExec command; EvRead Stdout; EvRead Stderr;
             EvRecvExitStatus; EvClose]
         ++ relay out err.
Proof.
  apply (@exit_code_tells_success unit (fixed_env both_streams_exit_7)
                                  sample_argv tt 7%Z);
    [reflexivity|discriminate|discriminate].
Defined.



(** X3: nothing is tried twice: whatever happens, a run of the command
    runner holds at most one [connect] and at most one [exec_command]. *)
Theorem no_second_attempt :
  forall Remote (env : Env Remote) (argv : list pystr) (r : Remote),
    List.length (filter is_connect (log_of (run (main env argv) r))) <= 1
    /\ List.length (filter is_exec (log_of (run (main env argv) r))) <= 1.
Proof.
  intros Remote env argv r.
  destruct (Nat.lt_ge_cases (List.length argv) 5) as [Hs|Hl].
  { rewrite (run_main_short env argv r Hs). cbn. lia. }
  destruct (enough_args argv Hl)
    as (prog & host & user & password & command & extra & ->).
  destruct (what_a_run_meets env host user password command r)
    as [(ch & out & err & Hm)|[(ch & out & err & Hm)|[(e & Hm)|[Hm|Hm]]]].
  - unfold log_of. rewrite (run_main_relays prog extra Hm).
    destruct err; cbn; lia.
  - unfold log_of. rewrite (run_main_refused prog extra Hm). cbn. lia.
  - destruct (run_main_fails prog extra Hm) as (n & w & Hr & Hlog & _).
    unfold log_of. rewrite Hr. cbn [snd]. rewrite Hlog. unfold attempted.
    destruct n as [|[|[|n]]]; cbn; rewrite ?firstn_nil; cbn; lia.
  - destruct (run_main_interrupted prog extra Hm) as (n & w & Hr & Hlog & _).
    unfold log_of. rewrite Hr. cbn [snd]. rewrite Hlog. unfold attempted.
    destruct n as [|[|[|n]]]; cbn; rewrite ?firstn_nil; cbn; lia.
  - unfold log_of. rewrite (run_main_stalls prog extra Hm). cbn. lia.
Qed.

(** ** What reaches the standard output *)

(** X4: nothing is written to the standard output while the session is
    open: in every run each write to it comes after the exit status has been
    read and the session closed. *)
Theorem output_only_after_close :
  forall Remote (env : Env Remote) (argv : list pystr) (r : Remote) (t : pystr),
    precedes EvRecvExitStatus (EvWrite Stdout t)
             (log_of (run (main env argv) r))
    /\ precedes EvClose (EvWrite Stdout t) (log_of (run (main env argv) r)).
Proof.
  intros Remote env argv r t.
  destruct (Nat.lt_ge_cases (List.length argv) 5) as [Hs|Hl].
  { rewrite (run_main_short env argv r Hs).
    split; apply precedes_absent; cbn; intuition discriminate. }
  destruct (enough_args argv Hl)
    as (prog & host & user & password & command & extra & ->).
  destruct (what_a_run_meets env host user password command r)
    as [(ch & out & err & Hm)|[(ch & out & err & Hm)|[(e & Hm)|[Hm|Hm]]]].
  - unfold log_of. rewrite (run_main_relays prog extra Hm). cbn [snd w_log].
    rewrite app_assoc.
    split; apply precedes_prefix; cbn; intuition discriminate.
  - unfold log_of. rewrite (run_main_refused prog extra Hm). cbn [snd w_log].
    split; apply precedes_absent; cbn; intuition discriminate.
  - destruct (run_main_fails prog extra Hm) as (n & w & Hr & Hlog & _).
    unfold log_of. rewrite Hr. cbn [snd]. rewrite Hlog.
    split; apply precedes_absent; apply no_stdout_before_failure.
  - destruct (run_main_interrupted prog extra Hm) as (n & w & Hr & Hlog & _).
    unfold log_of. rewrite Hr. cbn [snd]. rewrite Hlog.
    split; apply precedes_absent; apply no_stdout_when_interrupted.
  - unfold log_of. rewrite (run_main_stalls prog extra Hm). cbn [snd w_log].
    split; apply precedes_absent; cbn; intuition discriminate.
Qed.

(** X5: when the standard error of the command is no UTF-8, its standard
    output is lost although it was read and decoded: the program reports a
    connection error and exits with 255 without having read the exit status,
    written anything to its standard output or closed the session. *)
Theorem undecodable_stderr_discards_stdout :
  forall Remote (env : Env Remote) prog host user password command extra r
         ch out,
    connects_and_executes env host user password command r ch ->
    utf8_decode (ch_stdout ch) = Some out ->
    utf8_decode (ch_stderr ch) = None ->
    let res := run (main env (prog :: host :: user :: password :: command
                                   :: extra)) r in
    fst res = Exited 255
    /\ active (w_client (snd res)) = true
    /\ log_of res
       = opening host user password 15
         ++ [EvExec command; EvRead Stdout; EvRead Stderr;
             EvWrite Stderr
               ((text "Connection error: "
                 ++ decode_error_text env (ch_stderr ch)) ++ newline)].
Proof.
  intros Remote env prog host user password command extra r ch out Hc Ho He
         res.
  subst res. unfold log_of, run. rewrite main_enough_args, try_except_main.
  rewrite (@main_try_stderr_undecodable Remote env host user password command
                                        r ch out Hc Ho He).
  repeat split.
Qed.

Lemma undecodable_stderr_discards_stdout_witness :
  let res := run (main (fixed_env stray_stderr) sample_argv) tt in
  fst res = Exited 255
  /\ active (w_client (snd res)) = true
  /\ log_of res
     = opening (text "router") (text "admin") (text "secret") 15
       ++ [EvExec (text "ls -l"); EvRead Stdout; EvRead Stderr;
           EvWrite Stderr
             ((text "Connection error: " ++ stray_byte_text) ++ newline)].
Proof.
  apply (@undecodable_stderr_discards_stdout
           unit (fixed_env stray_stderr) (text "ssh-helper.py") (text "router")
           (text "admin") (text "secret") (text "ls -l") [] tt stray_stderr
           (text "hello")).
  - repeat split.
  - reflexivity.
  - reflexivity.
Defined.

(** ** The relay keeps the bytes *)





(** ** The key-append script: what it sends and when it stops *)

(** X8: a run of the key-append script connects at most once and sends at
    most three commands, each of them the lookup or one of the two appends
    of the stripped content of the key file. *)
Theorem add_key_sends_only_its_commands :
  forall Remote (env : Env Remote) (r : Remote),
    let log := log_of (run (add_key_nvram env) r) in
    List.length (filter is_connect log) <= 1
    /\ List.length (filter is_exec log) <= 3
    /\ forall c,
        In (EvExec c) log ->
        c = get_keys
        \/ exists keyfile,
            read_file env keyfile_path = inr keyfile
            /\ (c = jffs_command (strip keyfile)
                \/ c = dropbear_command (strip keyfile)).
Proof.
  intros Remote env r. cbv zeta.
  unfold keyfile_path, get_keys. explore;
    (split; [cbn; lia|split; [cbn; lia|]]);
    intros cmd Hcmd; cbn in Hcmd;
    repeat (destruct Hcmd as [Hcmd|Hcmd]; try discriminate Hcmd);
    try contradiction;
    inversion Hcmd; subst; eauto.
Qed.

Lemma lstrip_blank :
  forall s, forallb isspace s = true -> lstrip s = [].
Proof.
  induction s as [|c s IH]; intro H; [reflexivity|].
  cbn in H. apply andb_true_iff in H. destruct H as [Hc Hs].
  cbn [lstrip]. rewrite Hc. now apply IH.
Qed.

Lemma strip_blank :
  forall s, forallb isspace s = true -> strip s = [].
Proof.
  intros s H. unfold strip. now rewrite (lstrip_blank s H).
Qed.

Lemma contains_nil : forall h, contains h [] = true.
Proof. intros [|c h]; reflexivity. Qed.

(** X9: a key file that holds nothing but white space counts as a key that
    is present: the empty key is in every answer, so the script appends
    nothing and reports the key as already in nvram. *)
Theorem blank_key_file_reported_present :
  forall Remote (env : Env Remote) r keyfile r1 current,
    looks_up env r keyfile r1 current ->
    forallb isspace keyfile = true ->
    run (add_key_nvram env) r
    = (Exited 0,
       mkWorld r1 (trusting router_host (server_key env router_host r) false)
               (lookup_calls
                ++ [EvWrite Stdout (already_present ++ newline); EvClose])).
Proof.
  intros Remote env r keyfile r1 current H Hb.
  apply (add_key_when_present H).
  rewrite (strip_blank keyfile Hb). apply contains_nil.
Qed.

Lemma blank_key_file_reported_present_witness :
  run (add_key_nvram (router_env (newline ++ newline))) blank_router
  = (Exited 0,
     mkWorld blank_router (trusting router_host [] false)
             (lookup_calls
              ++ [EvWrite Stdout (already_present ++ newline); EvClose])).
Proof.
  apply (@blank_key_file_reported_present
           Router (router_env (newline ++ newline)) blank_router
           (newline ++ newline) blank_router newline).
  - apply router_looked_up. reflexivity.
  - reflexivity.
Defined.

Lemma startswith_refl_app :
  forall n post, startswith (n ++ post) n = true.
Proof.
  induction n as [|c n IH]; intro post; [reflexivity|].
  cbn. rewrite N.eqb_refl. apply IH.
Qed.

Lemma contains_infix :
  forall pre n post, contains (pre ++ n ++ post) n = true.
Proof.
  intros pre n post. apply contains_app_r.
  destruct (n ++ post) as [|c l] eqn:E.
  - destruct n; [reflexivity|discriminate].
  - cbn [contains]. rewrite <- E, startswith_refl_app. reflexivity.
Qed.

Lemma startswith_inv :
  forall p s, startswith s p = true -> exists post, s = p ++ post.
Proof.
  induction p as [|a p IH]; intros s H.
  - exists s. reflexivity.
  - destruct s as [|b s]; [discriminate|].
    cbn in H. apply andb_true_iff in H. destruct H as [Hab Hs].
    apply N.eqb_eq in Hab. subst b.
    destruct (IH s Hs) as [post ->]. exists post. reflexivity.
Qed.

(** [contains] is Python's [in]: the needle sits somewhere in the haystack. *)
Lemma contains_iff :
  forall h n,
    contains h n = true <-> exists pre post, h = pre ++ n ++ post.
Proof.
  intros h n. split.
  - induction h as [|c h IH]; cbn [contains]; intro H.
    + rewrite orb_false_r in H. destruct (startswith_inv n [] H) as [post E].
      exists [], post. exact E.
    + apply orb_true_iff in H. destruct H as [H|H].
      * destruct (startswith_inv n (c :: h) H) as [post E].
        exists [], post. exact E.
      * destruct (IH H) as (pre & post & ->).
        exists (c :: pre), post. reflexivity.
  - intros (pre & post & ->). apply contains_infix.
Qed.

(** X10: the guard looks for the key anywhere in the answer: whenever the
    stripped answer of the lookup holds the stripped key as a substring, be
    it inside a longer key, the script sends no further command, leaves the
    remote host as the lookup left it and reports the key as present. *)
Theorem guard_skips_when_key_is_substring :
  forall Remote (env : Env Remote) r keyfile r1 current pre post,
    looks_up env r keyfile r1 current ->
    strip current = pre ++ strip keyfile ++ post ->
    run (add_key_nvram env) r
    = (Exited 0,
       mkWorld r1 (trusting router_host (server_key env router_host r) false)
               (lookup_calls
                ++ [EvWrite Stdout (already_present ++ newline); EvClose])).
Proof.
  intros Remote env r keyfile r1 current pre post H E.
  apply (add_key_when_present H). rewrite E. apply contains_infix.
Qed.

Lemma guard_skips_when_key_is_substring_witness :
  let r := writable_router (echo (sample_key ++ text "-old")) true [] [] in
  run (add_key_nvram (router_env (sample_key ++ newline))) r
  = (Exited 0,
     mkWorld r (trusting router_host [] false)
             (lookup_calls
              ++ [EvWrite Stdout (already_present ++ newline); EvClose])).
Proof.
  cbv zeta.
  apply (@guard_skips_when_key_is_substring
           Router (router_env (sample_key ++ newline))
           (writable_router (echo (sample_key ++ text "-old")) true [] [])
           (sample_key ++ newline)
           (writable_router (echo (sample_key ++ text "-old")) true [] [])
           (sample_key ++ text "-old" ++ newline ++ newline)
           [] (text "-old")).
  - apply router_looked_up. reflexivity.
  - reflexivity.
Defined.

(** X11: without the key file the script ends in a traceback of the error of
    [open] before it has made a client: nothing reaches the network. *)
Theorem unreadable_key_file_stops_before_network :
  forall Remote (env : Env Remote) r e,
    read_file env keyfile_path = inl e ->
    run (add_key_nvram env) r
    = (Traceback e, mkWorld r fresh_client [EvOpenFile keyfile_path]).
Proof.
  intros Remote env r e H. unfold keyfile_path in *.
  unfold_script. cbn. rewrite H. reflexivity.
Qed.

Lemma unreadable_key_file_stops_before_network_witness :
  run (add_key_nvram no_keyfile_env) blank_router
  = (Traceback (Exc FileNotFoundError
                    (text "[Errno 2] No such file or directory")),
     mkWorld blank_router fresh_client [EvOpenFile keyfile_path]).
Proof.
  apply unreadable_key_file_stops_before_network. reflexivity.
Defined.

(** X12: when the answer of the lookup is no UTF-8 the script ends in a
    traceback of the decoding error: no append is sent and the session it
    opened is not closed. *)
Theorem undecodable_lookup_aborts :
  forall Remote (env : Env Remote) r keyfile r1 ch,
    read_file env keyfile_path = inr keyfile ->
    transport_fault env router_host 10 r = None ->
    auth_fault env router_host router_user router_password r = None ->
    remote_exec env get_keys r = (r1, inr ch) ->
    utf8_decode (ch_stdout ch) = None ->
    run (add_key_nvram env) r
    = (Traceback (Exc UnicodeDecodeError
                      (decode_error_text env (ch_stdout ch))),
       mkWorld r1 (trusting router_host (server_key env router_host r) true)
               lookup_calls).
Proof.
  intros Remote env r keyfile r1 ch H1 H2 H3 H4 H5.
  unfold keyfile_path, router_host, router_user, router_password, get_keys
    in *.
  unfold_script. cbn. rewrite H1. cbn. rewrite H2. cbn. rewrite H3. cbn.
  rewrite H4. cbn. rewrite H5. reflexivity.
Qed.

Lemma undecodable_lookup_aborts_witness :
  let r := writable_router [xff] true [] [] in
  run (add_key_nvram (router_env (sample_key ++ newline))) r
  = (Traceback (Exc UnicodeDecodeError stray_byte_text),
     mkWorld r (trusting router_host [] true) lookup_calls).
Proof.
  cbv zeta.
  apply (@undecodable_lookup_aborts
           Router (router_env (sample_key ++ newline))
           (writable_router [xff] true [] []) (sample_key ++ newline)
           (writable_router [xff] true [] [])
           (mkChannel [xff; x0a] [] 0)); reflexivity.
Defined.

(** ** The append commands on the router *)

Lemma skipn_length_app :
  forall (p s : pystr), skipn (List.length p) (p ++ s) = s.
Proof. induction p as [|c p IH]; intro s; [reflexivity|apply IH]. Qed.

Lemma strip_prefix_app :
  forall p s, strip_prefix p (p ++ s) = Some s.
Proof.
  intros p s. unfold strip_prefix.
  now rewrite startswith_refl_app, skipn_length_app.
Qed.

Lemma strip_suffix_app :
  forall p s, strip_suffix p (s ++ p) = Some s.
Proof.
  intros p s. unfold strip_suffix.
  rewrite rev_app_distr, strip_prefix_app. cbn. now rewrite rev_involutive.
Qed.

Lemma strip_suffix_other_end :
  forall q d a c, c <> d -> strip_suffix (q ++ [d]) (a ++ [c]) = None.
Proof.
  intros q d a c H. unfold strip_suffix, strip_prefix.
  rewrite !rev_app_distr. cbn.
  destruct (N.eqb_spec d c); [congruence|reflexivity].
Qed.

Lemma split_on_first_quote :
  forall sep' k rest,
    forallb shell_plain k = true ->
    split_on (34%N :: sep') (k ++ (34%N :: sep') ++ rest) = Some (k, rest).
Proof.
  intros sep' k rest. induction k as [|c k IH]; intro H.
  - cbn [app]. change (34%N :: sep' ++ rest) with ((34%N :: sep') ++ rest).
    destruct ((34%N :: sep') ++ rest) as [|x l] eqn:E; [discriminate|].
    cbn [split_on]. rewrite <- E, startswith_refl_app.
    now rewrite skipn_length_app.
  - cbn in H. apply andb_true_iff in H. destruct H as [Hc Hk].
    cbn [app split_on startswith].
    assert (Hq : (34 =? c)%N = false).
    { unfold shell_plain in Hc. apply negb_true_iff in Hc.
      apply orb_false_iff in Hc. destruct Hc as [Hc _].
      apply orb_false_iff in Hc. destruct Hc as [Hc _].
      apply orb_false_iff in Hc. destruct Hc as [Hc _].
      now rewrite N.eqb_sym. }
    rewrite Hq. cbn [andb].
    change (k ++ 34%N :: sep' ++ rest) with (k ++ (34%N :: sep') ++ rest).
    now rewrite (IH Hk).
Qed.

Lemma parse_jffs_command :
  forall k, forallb shell_plain k = true ->
            parse_jffs (jffs_command k) = Some (k, k).
Proof.
  intros k H. unfold parse_jffs.
  replace (jffs_command k)
    with ((text "echo " ++ dquote)
          ++ (k ++ (34%N :: text " >> /jffs/.ssh/authorized_keys 2>/dev/null || mkdir -p /jffs/.ssh && echo "
                         ++ dquote) ++ k)
          ++ (dquote ++ text " >> /jffs/.ssh/authorized_keys"))
    by (unfold jffs_command, dquote; cbn [app]; rewrite <- !app_assoc;
        reflexivity).
  rewrite strip_prefix_app, strip_suffix_app.
  apply (split_on_first_quote _ k k H).
Qed.

Lemma parse_dropbear_jffs_command :
  forall k, parse_dropbear (jffs_command k) = None.
Proof.
  intro k. unfold parse_dropbear.
  replace (jffs_command k)
    with ((text "echo " ++ dquote)
          ++ (k ++ dquote
                ++ text " >> /jffs/.ssh/authorized_keys 2>/dev/null || mkdir -p /jffs/.ssh && echo "
                ++ dquote ++ k ++ dquote ++ text " >> /jffs/.ssh/authorized_key")
          ++ [115%N])
    by (unfold jffs_command; rewrite <- !app_assoc; reflexivity).
  rewrite strip_prefix_app.
  change (dquote ++ text " >> /etc/dropbear/authorized_keys 2>/dev/null")
    with ((dquote ++ text " >> /etc/dropbear/authorized_keys 2>/dev/nul")
          ++ [108%N]).
  apply strip_suffix_other_end. discriminate.
Qed.

Lemma parse_dropbear_command :
  forall k, parse_dropbear (dropbear_command k) = Some k.
Proof.
  intro k. unfold parse_dropbear.
  replace (dropbear_command k)
    with ((text "echo " ++ dquote)
          ++ k ++ (dquote ++ text " >> /etc/dropbear/authorized_keys 2>/dev/null"))
    by (unfold dropbear_command; rewrite <- !app_assoc; reflexivity).
  now rewrite strip_prefix_app, strip_suffix_app.
Qed.

Lemma append_command_is_no_lookup :
  forall k, jffs_command k <> get_keys /\ dropbear_command k <> get_keys.
Proof.
  intro k. split; intro E; vm_compute in E; discriminate E.
Qed.

(** What the first append command does on a writable router: the key goes
    into the file twice when the directory is there, [(a || b) && c] running
    [c] after [a] has succeeded, and once when it has to be made. *)
Lemma router_runs_jffs_command :
  forall k nvram dir jffs dropbear,
    forallb shell_plain k = true ->
    router_exec (jffs_command k) (writable_router nvram dir jffs dropbear)
    = (writable_router nvram true
                       (jffs ++ if dir then echo k ++ echo k else echo k)
                       dropbear,
       inr (mkChannel [] [] 0)).
Proof.
  intros k nvram dir jffs dropbear H. unfold router_exec.
  destruct (list_eq_dec N.eq_dec (jffs_command k) (text "nvram get sshd_authkeys"))
    as [E|_]; [now destruct (append_command_is_no_lookup k)|].
  rewrite parse_dropbear_jffs_command, (parse_jffs_command k H).
  destruct dir; cbn; rewrite <- ?app_assoc; reflexivity.
Qed.

Lemma router_runs_dropbear_command :
  forall k nvram dir jffs dropbear,
    router_exec (dropbear_command k) (writable_router nvram dir jffs dropbear)
    = (writable_router nvram dir jffs (dropbear ++ echo k),
       inr (mkChannel [] [] 0)).
Proof.
  intros k nvram dir jffs dropbear. unfold router_exec.
  destruct (list_eq_dec N.eq_dec (dropbear_command k)
                        (text "nvram get sshd_authkeys"))
    as [E|_]; [now destruct (append_command_is_no_lookup k)|].
  rewrite parse_dropbear_command. reflexivity.
Qed.

(** X13: on a writable router one invocation that appends puts the key into
    [/jffs/.ssh/authorized_keys] twice when [/jffs/.ssh] exists, and once
    when the command has to make the directory first; the other file gets it
    once, and the nvram variable the guard reads stays as it was. *)
Theorem first_file_gets_key_twice :
  forall keyfile nvram dir jffs dropbear current,
    plain_key (strip keyfile) = true ->
    utf8_decode (nvram ++ [x0a]) = Some current ->
    contains (strip current) (strip keyfile) = false ->
    run (add_key_nvram (router_env keyfile))
        (writable_router nvram dir jffs dropbear)
    = (Exited 0,
       mkWorld (writable_router
                  nvram true
                  (jffs ++ if dir
                           then echo (strip keyfile) ++ echo (strip keyfile)
                           else echo (strip keyfile))
                  (dropbear ++ echo (strip keyfile)))
               (trusting router_host [] false)
               (lookup_calls ++ append_calls (strip keyfile)
                ++ [EvWrite Stdout (key_added ++ newline); EvClose])).
Proof.
  intros keyfile nvram dir jffs dropbear current Hp Hd Hc.
  unfold plain_key in Hp. apply andb_true_iff in Hp. destruct Hp as [Hp _].
  apply (@add_key_when_absent
           Router (router_env keyfile)
           (writable_router nvram dir jffs dropbear) keyfile
           (writable_router nvram dir jffs dropbear) current
           (writable_router nvram true
                            (jffs ++ if dir
                                     then echo (strip keyfile)
                                          ++ echo (strip keyfile)
                                     else echo (strip keyfile))
                            dropbear)
           (mkChannel [] [] 0)
           (writable_router nvram true
                            (jffs ++ if dir
                                     then echo (strip keyfile)
                                          ++ echo (strip keyfile)
                                     else echo (strip keyfile))
                            (dropbear ++ echo (strip keyfile)))
           (mkChannel [] [] 0)).
  - apply router_looked_up. exact Hd.
  - exact Hc.
  - apply router_runs_jffs_command. exact Hp.
  - apply router_runs_dropbear_command.
Qed.

Lemma first_file_gets_key_twice_witness :
  run (add_key_nvram (router_env (sample_key ++ newline)))
      (writable_router [] true [] [])
  = (Exited 0,
     mkWorld (writable_router [] true (echo sample_key ++ echo sample_key)
                              (echo sample_key))
             (trusting router_host [] false)
             (lookup_calls ++ append_calls sample_key
              ++ [EvWrite Stdout (key_added ++ newline); EvClose])).
Proof.
  apply (@first_file_gets_key_twice (sample_key ++ newline) [] true [] []
                                    newline); reflexivity.
Defined.
